(** * agri-rag: the Flask application [src/app.py]

    A shallow embedding of the upload / listing / chat handlers of
    [src/app.py] together with the library behaviour they rely on, and the
    properties of the ingestion bookkeeping (content-hash deduplication, the
    JSON manifest, stored paths) proved about that embedding.

    Layout:
    - [Hashlib]  : [hashlib.sha256] as an incremental object (FIPS 180-4);
    - [Py]       : the pieces of [str], [os.path], [datetime] and [sorted]
                   that the handlers call;
    - [App]      : the state of the process and of its files, the handlers;
    - then the lemmas, the theorems and closed evaluations on concrete runs.

    Conventions:
    - a handler is a function from the state to the state and either its
      response or the exception that left it; the state it reached when
      the exception was raised is kept;
    - bytes are [Byte.byte], a [str] is a [string] of code points below 256,
      a [dict] is a [gmap];
    - requests are handled one at a time;
    - the calls to [print] are left out. *)

From Stdlib Require Import ZArith List Lia Ascii Sorted Permutation.
From Stdlib.Strings Require Import Byte.
From stdpp Require Import gmap strings list fin_maps sorting.
From Equations Require Import Equations.
Import ListNotations.
Local Open Scope Z_scope.

(* ===================================================================== *)
(** ** hashlib.sha256 *)
(* ===================================================================== *)

Module Hashlib.

(** 32-bit words are integers in [0, 2^32); every operation that can leave
    the range is reduced explicitly. *)
Definition w32 (x : Z) : Z := x mod 2 ^ 32.
Definition add32 (x y : Z) : Z := w32 (x + y).
Definition rotr (n x : Z) : Z :=
  w32 (Z.lor (Z.shiftr x n) (Z.shiftl x (32 - n))).
Definition shr (n x : Z) : Z := Z.shiftr x n.
Definition not32 (x : Z) : Z := Z.lxor x (2 ^ 32 - 1).

Definition Ch (x y z : Z) : Z := Z.lxor (Z.land x y) (Z.land (not32 x) z).
Definition Maj (x y z : Z) : Z :=
  Z.lxor (Z.lxor (Z.land x y) (Z.land x z)) (Z.land y z).
Definition bsig0 (x : Z) : Z := Z.lxor (Z.lxor (rotr 2 x) (rotr 13 x)) (rotr 22 x).
Definition bsig1 (x : Z) : Z := Z.lxor (Z.lxor (rotr 6 x) (rotr 11 x)) (rotr 25 x).
Definition ssig0 (x : Z) : Z := Z.lxor (Z.lxor (rotr 7 x) (rotr 18 x)) (shr 3 x).
Definition ssig1 (x : Z) : Z := Z.lxor (Z.lxor (rotr 17 x) (rotr 19 x)) (shr 10 x).

(** The round constants are the first 32 bits of the fractional parts of the
    cube roots of the first 64 primes, the initial hash value those of the
    square roots of the first 8 primes; both tables are computed here from
    that description rather than typed in. *)
Fixpoint icbrt_between (fuel : nat) (lo hi n : Z) : Z :=
  match fuel with
  | O => lo
  | S fuel' =>
      if hi - lo <=? 1 then lo
      else let mid := (lo + hi) / 2 in
           if mid * mid * mid <=? n then icbrt_between fuel' mid hi n
           else icbrt_between fuel' lo mid n
  end.

Definition icbrt (n : Z) : Z := icbrt_between 200 0 (2 ^ 40) n.

Definition is_prime (p : Z) : bool :=
  (2 <=? p)
  && forallb (fun d => negb (p mod d =? 0)) (map Z.of_nat (seq 2 (Z.to_nat p - 2))).

Definition primes_upto (n : nat) : list Z :=
  filter (fun p => is_prime p = true) (map Z.of_nat (seq 2 (n - 1))).

Definition K : list Z :=
  Eval vm_compute in map (fun p => w32 (icbrt (p * 2 ^ 96))) (primes_upto 311).

Definition IV : list Z :=
  Eval vm_compute in map (fun p => w32 (Z.sqrt (p * 2 ^ 64))) (primes_upto 19).

(** The eight working registers / the intermediate hash value. *)
Definition regs : Type := Z * Z * Z * Z * Z * Z * Z * Z.

Definition iv : regs :=
  match IV with
  | [a; b; c; d; e; f; g; h] => (a, b, c, d, e, f, g, h)
  | _ => (0, 0, 0, 0, 0, 0, 0, 0)
  end.

Definition round (r : regs) (k w : Z) : regs :=
  let '(a, b, c, d, e, f, g, h) := r in
  let t1 := add32 (add32 (add32 (add32 h (bsig1 e)) (Ch e f g)) k) w in
  let t2 := add32 (bsig0 a) (Maj a b c) in
  (add32 t1 t2, a, b, c, add32 d t1, e, f, g).

(** The message schedule is kept as a sliding window of sixteen words: its
    head is W(t), and W(t+16) is appended as the head is dropped. *)
Definition next_word (win : list Z) : Z :=
  add32 (add32 (add32 (ssig1 (nth 14 win 0)) (nth 9 win 0)) (ssig0 (nth 1 win 0)))
        (nth 0 win 0).

Fixpoint rounds (ks : list Z) (win : list Z) (r : regs) : regs :=
  match ks with
  | [] => r
  | k :: ks' => rounds ks' (tl win ++ [next_word win]) (round r k (hd 0 win))
  end.

Definition byte_val (b : byte) : Z := Z.of_N (Byte.to_N b).

Fixpoint be_words (bs : list byte) : list Z :=
  match bs with
  | b0 :: b1 :: b2 :: b3 :: rest =>
      (byte_val b0 * 2 ^ 24 + byte_val b1 * 2 ^ 16 + byte_val b2 * 2 ^ 8 + byte_val b3)
        :: be_words rest
  | _ => []
  end.

Definition compress (hv : regs) (block : list byte) : regs :=
  let '(a, b, c, d, e, f, g, h) := hv in
  let '(a', b', c', d', e', f', g', h') := rounds K (be_words block) hv in
  (add32 a a', add32 b b', add32 c c', add32 d d',
   add32 e e', add32 f f', add32 g g', add32 h h').

(** The hash object: the intermediate hash value, the bytes received since
    the last complete 64-byte block, and the number of bytes received. *)
Record sha256_obj := Sha256 { hv : regs; pending : list byte; count : Z }.

Definition sha256 : sha256_obj := Sha256 iv [] 0.

Section Absorb.
Variable step : regs -> list byte -> regs.

(** Bytes fill the block buffer one at a time; a full buffer is compressed
    into the hash value and emptied. *)
Fixpoint absorb_with (h : regs) (buf data : list byte) : regs * list byte :=
  match data with
  | [] => (h, buf)
  | b :: rest =>
      let buf' := buf ++ [b] in
      if (length buf' =? 64)%nat then absorb_with (step h buf') [] rest
      else absorb_with h buf' rest
  end.
End Absorb.

Definition absorb : regs -> list byte -> list byte -> regs * list byte :=
  absorb_with compress.

(** [h.update(data)] *)
Definition update (o : sha256_obj) (data : list byte) : sha256_obj :=
  let '(h, buf) := absorb (hv o) (pending o) data in
  Sha256 h buf (count o + Z.of_nat (length data)).

Definition byte_of (n : Z) : byte :=
  match Byte.of_N (Z.to_N (n mod 256)) with Some b => b | None => Byte.x00 end.

Definition be_bytes (width : nat) (n : Z) : list byte :=
  map (fun i => byte_of (Z.shiftr n (8 * Z.of_nat i))) (rev (seq 0 width)).

(** Padding: a 1 bit, zero bits up to 56 modulo 64 bytes, and the message
    length in bits as a 64-bit big-endian integer. *)
Definition padding (len : Z) : list byte :=
  Byte.x80 :: repeat Byte.x00 (Z.to_nat ((55 - len) mod 64)) ++ be_bytes 8 (8 * len).

Definition digest_words (o : sha256_obj) : regs :=
  fst (absorb (hv o) (pending o) (padding (count o))).

Definition hex_digit (n : Z) : ascii :=
  let d := n mod 16 in
  ascii_of_N (Z.to_N (if d <? 10 then 48 + d else 87 + d)).

Definition hex32 (x : Z) : string :=
  String (hex_digit (Z.shiftr x 28)) (String (hex_digit (Z.shiftr x 24))
  (String (hex_digit (Z.shiftr x 20)) (String (hex_digit (Z.shiftr x 16))
  (String (hex_digit (Z.shiftr x 12)) (String (hex_digit (Z.shiftr x 8))
  (String (hex_digit (Z.shiftr x 4)) (String (hex_digit x) EmptyString))))))).

(** [h.hexdigest()]; it does not change the object. *)
Definition hexdigest (o : sha256_obj) : string :=
  let '(a, b, c, d, e, f, g, h) := digest_words o in
  hex32 a +:+ hex32 b +:+ hex32 c +:+ hex32 d +:+
  hex32 e +:+ hex32 f +:+ hex32 g +:+ hex32 h.

(** The digest of a whole byte string fed in a single call. *)
Definition sha256_hex (data : list byte) : string := hexdigest (update sha256 data).

End Hashlib.

(* ===================================================================== *)
(** ** The Python library functions the handlers call *)
(* ===================================================================== *)

Module Py.

(** *** str

    A [str] is a [string] whose characters are the code points below 256. *)

(** [str.isspace] on those code points: TAB..CR, FS..US, SPACE, NEL, NBSP. *)
Definition isspace (c : ascii) : bool :=
  let n := Z.of_N (N_of_ascii c) in
  ((9 <=? n) && (n <=? 13)) || ((28 <=? n) && (n <=? 32)) || (n =? 133) || (n =? 160).

Fixpoint lstrip (s : string) : string :=
  match s with
  | EmptyString => EmptyString
  | String c r => if isspace c then lstrip r else s
  end.

Definition rstrip (s : string) : string := String.rev (lstrip (String.rev s)).

(** [s.strip()] *)
Definition strip (s : string) : string := rstrip (lstrip s).

(** [sep.join(parts)] *)
Fixpoint join (sep : string) (parts : list string) : string :=
  match parts with
  | [] => ""
  | [p] => p
  | p :: rest => p +:+ sep +:+ join sep rest
  end.

(** Truth value of a [str]: [not s] holds exactly for the empty string. *)
Definition truthy (s : string) : bool := negb (String.eqb s "").

(** *** os.path (posixpath) *)

Definition startswith (c : ascii) (s : string) : bool :=
  match s with
  | String d _ => Ascii.eqb d c
  | EmptyString => false
  end.

Definition endswith (c : ascii) (s : string) : bool := startswith c (String.rev s).

(** [os.path.join(a, b)] *)
Definition join_path (a b : string) : string :=
  if startswith "/" b then b
  else if negb (truthy a) || endswith "/" a then a +:+ b
  else a +:+ "/" +:+ b.

(** [s.rfind(c)]: the greatest index of [c] in [s], or -1. *)
Fixpoint rfind_from (c : ascii) (s : string) (i found : Z) : Z :=
  match s with
  | EmptyString => found
  | String d r => rfind_from c r (i + 1) (if Ascii.eqb d c then i else found)
  end.

Definition rfind (c : ascii) (s : string) : Z := rfind_from c s 0 (-1).

(** [s[lo:hi]] for [0 <= lo <= hi]. *)
Definition slice (lo hi : Z) (s : string) : string :=
  String.substring (Z.to_nat lo) (Z.to_nat (hi - lo)) s.

(** [os.path.splitext(p)]: the extension starts at the last dot of the last
    path component, unless only dots precede it in that component. *)
Definition splitext (p : string) : string * string :=
  let sepIndex := rfind "/" p in
  let dotIndex := rfind "." p in
  if (sepIndex <? dotIndex)
     && existsb (fun ch => negb (Ascii.eqb ch "."))
                (String.list_ascii_of_string (slice (sepIndex + 1) dotIndex p))
  then (slice 0 dotIndex p, slice dotIndex (Z.of_nat (String.length p)) p)
  else (p, "").

(** *** datetime *)

Record datetime := Datetime {
  year : Z; month : Z; day : Z;
  hour : Z; minute : Z; second : Z; microsecond : Z
}.

Definition digit (n : Z) : ascii := ascii_of_N (Z.to_N (48 + n mod 10)).

(** [n] in decimal, zero-padded to [width] digits. *)
Fixpoint dec (width : nat) (n : Z) : string :=
  match width with
  | O => ""
  | S w => dec w (n / 10) +:+ String (digit n) ""
  end.

(** [d.strftime("%Y%m%d%H%M%S")] *)
Definition strftime_compact (d : datetime) : string :=
  dec 4 (year d) +:+ dec 2 (month d) +:+ dec 2 (day d) +:+
  dec 2 (hour d) +:+ dec 2 (minute d) +:+ dec 2 (second d).

(** [d.isoformat()]: the fraction is printed only when it is not zero. *)
Definition isoformat (d : datetime) : string :=
  dec 4 (year d) +:+ "-" +:+ dec 2 (month d) +:+ "-" +:+ dec 2 (day d) +:+ "T" +:+
  dec 2 (hour d) +:+ ":" +:+ dec 2 (minute d) +:+ ":" +:+ dec 2 (second d) +:+
  (if microsecond d =? 0 then "" else "." +:+ dec 6 (microsecond d)).

(** *** sorted

    [sorted(l, key=key, reverse=True)] for string keys.  The sort is stable:
    of two elements with equal keys, the one that comes first in [l] comes
    first in the result.  An element is therefore inserted in front of the
    first element whose key is not greater than its own. *)
Section Sorted.
Context {A : Type} (key : A -> string).

Fixpoint insert_desc (x : A) (l : list A) : list A :=
  match l with
  | [] => [x]
  | y :: r =>
      if String.ltb (key x) (key y) then y :: insert_desc x r
      else x :: y :: r
  end.

Definition sorted_reverse (l : list A) : list A := foldr insert_desc [] l.
End Sorted.

End Py.

(* ===================================================================== *)
(** ** The application *)
(* ===================================================================== *)

Module App.
Import Hashlib Py.

Definition UPLOAD_FOLDER : string := "data".
Definition PROCESSED_FOLDER : string := "processed_data".
Definition PROCESSED_INDEX : string := join_path PROCESSED_FOLDER "processed_index.json".

(** *** Exceptions and results *)

Inductive exn :=
| FileNotFoundError (path : string)
| IsADirectoryError (path : string)
| JSONDecodeError
| NotFound                        (* werkzeug.exceptions.NotFound *)
| LibraryError (what : string).   (* raised inside one of the libraries *)

Inductive result (A : Type) :=
| Ok (a : A)
| Raise (e : exn).
Arguments Ok {A} a.
Arguments Raise {A} e.

(** *** Data *)

(** A manifest record is a [dict] with string values; [rec.get(k)] is the
    lookup [rec !! k]. *)
Abbreviation record := (gmap string string).

(** What [processed_data/processed_index.json] holds: text that [json.load]
    rejects, or the list of records it returns (the text [json.dump] writes
    for a list is read back as that list). *)
Inductive manifest_file :=
| Unparseable
| Records (l : list record).

Inductive json :=
| JStr (s : string)
| JDict (d : record)
| JList (l : list record).

(** A response: the status code and the object given to [jsonify], or the
    bytes of a static file. *)
Inductive body :=
| Json (o : gmap string json)
| Static (content : list byte).

Record response := Response { status : Z; payload : body }.

(** [request.files[...]] *)
Record FileStorage := { filename : string; stream : list byte }.

(** [SimpleDoc] and the chunks made of it. *)
Record SimpleDoc := { page_content : string; metadata : record }.

(** [PdfReader(path).pages], observed as the loop over it sees it: each page
    with what [page.extract_text()] does (a string, [None], or an
    exception), until the pages end or the reader itself raises. *)
Inductive page_iter :=
| NoMorePages
| ReaderRaises (e : exn)
| NextPage (extract_text : result (option string)) (rest : page_iter).

(** Modelled from the spec: the Vector Store of [src/search.py], which is
    not among the sources: "an append-only collection of (vector, metadata)
    pairs", whose index does not exist until the first [add]. *)
Record vectorstore (V : Type) := VectorStore {
  index : option (list V);
  entries_meta : list record
}.
Arguments VectorStore {V} index entries_meta.
Arguments index {V} v.
Arguments entries_meta {V} v.

(** The functions of other modules that the handlers call, as parameters:
    [werkzeug], [PyPDF2], and this repository's [src/embedding.py] and
    [src/search.py]. Each of the latter may raise. *)
Record Libs := {
  vec : Type;
  secure_filename : string -> string;
  PdfReader : list byte -> result page_iter;
  chunk_documents : list SimpleDoc -> result (list SimpleDoc);
  embed_chunks : list SimpleDoc -> result (list vec);
  search_and_summarize : vectorstore vec -> string -> result string
}.

(** Calls into the retrieval code, logged in the order they are made. *)
Inductive call :=
| CallRAGSearch
| CallEmbeddingPipeline
| CallChunkDocuments
| CallEmbedChunks
| CallAddEmbeddings
| CallSave
| CallSearchAndSummarize (query : string).

(** The two readings of [datetime.datetime.utcnow()] an upload may take:
    for the file-name suffix and for [processed_at]. *)
Record clock := { at_suffix : datetime; at_record : datetime }.

Inductive request :=
| POST_upload (files : gmap string FileStorage) (clk : clock)
| GET_processed
| POST_chat (json_body : gmap string string)
| GET_static (path : string).

(** *** The reading loop of compute_file_hash *)

(** [f.read(n)] on the bytes that remain: at most [n] of them, all of them
    for a negative [n]. *)
Definition read (n : Z) (f : list byte) : list byte * list byte :=
  if n <? 0 then (f, []) else (take (Z.to_nat n) f, drop (Z.to_nat n) f).

Definition inspect {A : Type} (x : A) : { y : A | x = y } := exist _ x eq_refl.

(** The [while True] loop: it ends at the first empty chunk, and every other
    chunk shortens what remains of the file. *)
Equations? hash_loop (chunk_size : Z) (h : sha256_obj) (f : list byte) : sha256_obj
  by wf (length f) lt :=
  hash_loop chunk_size h f with inspect (read chunk_size f) := {
    | exist _ ([], _) _ => h
    | exist _ (b :: chunk, f') e => hash_loop chunk_size (update h (b :: chunk)) f' }.
Proof.
  unfold read in e. destruct (chunk_size <? 0).
  - injection e as -> <-. cbn. lia.
  - injection e as Ht <-. rewrite length_drop.
    destruct (Z.to_nat chunk_size); [discriminate Ht|].
    destruct f; [discriminate Ht|]. cbn. lia.
Defined.

Section Handlers.
Variable L : Libs.

(** *** State

    - [fs]: the regular files, by path, other than the manifest (a
      sanitised name has no separator, so that no upload is saved or moved
      onto the manifest);
    - [manifest]: the manifest file;
    - [rag]: the module-level [rag], [None] until [get_rag] builds it;
    - [vector_disk]: the snapshot of the vector store on disk;
    - [calls]: the log of calls into the retrieval code. *)
Record state := State {
  fs : gmap string (list byte);
  manifest : manifest_file;
  rag : option (vectorstore (vec L));
  vector_disk : vectorstore (vec L);
  calls : list call
}.

Definition set_fs (f : gmap string (list byte) -> gmap string (list byte)) (s : state) : state :=
  State (f (fs s)) (manifest s) (rag s) (vector_disk s) (calls s).
Definition set_manifest (m : manifest_file) (s : state) : state :=
  State (fs s) m (rag s) (vector_disk s) (calls s).
Definition set_rag (r : option (vectorstore (vec L))) (s : state) : state :=
  State (fs s) (manifest s) r (vector_disk s) (calls s).
Definition set_vector_disk (v : vectorstore (vec L)) (s : state) : state :=
  State (fs s) (manifest s) (rag s) v (calls s).
Definition add_call (c : call) (s : state) : state :=
  State (fs s) (manifest s) (rag s) (vector_disk s) (calls s ++ [c]).

(** *** Computations: a state that survives exceptions *)

Definition M (A : Type) : Type := state -> state * result A.

Definition ret {A} (a : A) : M A := fun s => (s, Ok a).
Definition raise {A} (e : exn) : M A := fun s => (s, Raise e).
Definition bind {A B} (m : M A) (k : A -> M B) : M B :=
  fun s => match m s with
           | (s', Ok a) => k a s'
           | (s', Raise e) => (s', Raise e)
           end.
Definition gets {A} (f : state -> A) : M A := fun s => (s, Ok (f s)).
Definition modify (f : state -> state) : M unit := fun s => (f s, Ok tt).
Definition lift {A} (r : result A) : M A := fun s => (s, r).
Definition log (c : call) : M unit := modify (add_call c).

(** [try: m  except Exception: handler] *)
Definition try_except {A} (m : M A) (handler : exn -> M A) : M A :=
  fun s => match m s with
           | (s', Raise e) => handler e s'
           | r => r
           end.

Notation "x <- c ;; k" := (bind c (fun x => k))
  (at level 100, c at next level, right associativity).
Notation "c ;;; k" := (bind c (fun _ => k))
  (at level 100, right associativity).

(** *** Files *)

(** The directories [os.makedirs] creates when the module is loaded. *)
Definition is_dir (p : string) : bool :=
  bool_decide (p ∈ [UPLOAD_FOLDER; UPLOAD_FOLDER +:+ "/";
                    PROCESSED_FOLDER; PROCESSED_FOLDER +:+ "/"]).

Definition os_path_exists (p : string) : M bool :=
  gets (fun s => is_dir p || bool_decide (p = PROCESSED_INDEX)
                 || bool_decide (is_Some (fs s !! p))).

Definition open_read (p : string) : M (list byte) :=
  f <- gets fs ;;
  match f !! p with
  | Some content => ret content
  | None => raise (FileNotFoundError p)
  end.

(** [file.save(p)] *)
Definition file_save (file : FileStorage) (p : string) : M unit :=
  if is_dir p then raise (IsADirectoryError p)
  else modify (set_fs (insert p (stream file))).

Definition os_remove (p : string) : M unit :=
  f <- gets fs ;;
  match f !! p with
  | Some _ => modify (set_fs (delete p))
  | None => raise (FileNotFoundError p)
  end.

(** [os.rename(src, dst)] replaces [dst] when it exists. *)
Definition os_rename (src dst : string) : M unit :=
  f <- gets fs ;;
  match f !! src with
  | Some content => modify (set_fs (fun f => <[dst := content]> (delete src f)))
  | None => raise (FileNotFoundError src)
  end.

(** *** compute_file_hash *)

Definition compute_file_hash (path : string) (chunk_size : Z) : M string :=
  f <- open_read path ;;
  ret (hexdigest (hash_loop chunk_size sha256 f)).

(** *** extract_text_from_pdf *)

(** [txt = page.extract_text() or ""], with [except Exception: txt = ""] *)
Definition page_text (extract_text : result (option string)) : string :=
  match extract_text with
  | Ok (Some txt) => if truthy txt then txt else ""
  | Ok None => ""
  | Raise _ => ""
  end.

(** The loop over the pages. [text_parts] is a local list that the loop
    appends to: what was appended before an exception is still there. *)
Fixpoint extract_pages (pages : page_iter) (text_parts : list string)
  : list string * result unit :=
  match pages with
  | NoMorePages => (text_parts, Ok tt)
  | ReaderRaises e => (text_parts, Raise e)
  | NextPage extract_text rest => extract_pages rest (text_parts ++ [page_text extract_text])
  end.

Definition blank_line : string := String "010" (String "010" "").

Definition extract_text_from_pdf (path : string) : M string :=
  fun s =>
    let '(text_parts, outcome) :=
      match open_read path s with
      | (_, Raise e) => ([], Raise e)
      | (_, Ok content) =>
          match PdfReader L content with
          | Raise e => ([], Raise e)
          | Ok pages => extract_pages pages []
          end
      end in
    match outcome with
    | Ok _ => (s, Ok (strip (join blank_line text_parts)))
    | Raise _ => (* except Exception as e: print(...) *)
        (s, Ok (strip (join blank_line text_parts)))
    end.

(** *** The manifest *)

Definition json_load : M (list record) :=
  m <- gets manifest ;;
  match m with
  | Records l => ret l
  | Unparseable => raise JSONDecodeError
  end.

Definition load_processed_index : M (list record) :=
  try_except json_load (fun _ => ret []).

Definition save_processed_index (index_list : list record) : M unit :=
  modify (set_manifest (Records index_list)).

(** *** The retrieval state *)

(** Modelled from the spec: the construction of [RAGSearch], which is not
    among the sources: the vector store is "persisted to disk and reloaded
    on process start", and the retrieval state is "constructed on first
    use". *)
Definition RAGSearch : M (vectorstore (vec L)) :=
  log CallRAGSearch ;;; gets vector_disk.

Definition get_rag : M (vectorstore (vec L)) :=
  r <- gets rag ;;
  match r with
  | None => v <- RAGSearch ;; modify (set_rag (Some v)) ;;; ret v
  | Some v => ret v
  end.

(** Modelled from the spec: [vectorstore.add_embeddings], which is not among
    the sources: "add(vectors, metadata_list) appends entries"; "if no index
    exists yet, the first add call implicitly creates one". *)
Definition add_embeddings (arr : list (vec L)) (metas : list record) : M unit :=
  log CallAddEmbeddings ;;;
  modify (fun s =>
    set_rag (fmap (M := option)
               (fun v => VectorStore (Some (default [] (index v) ++ arr))
                                     (entries_meta v ++ metas))
               (rag s)) s).

(** Modelled from the spec: [vectorstore.save], which is not among the
    sources: "save() persists the in-memory index and metadata to disk". *)
Definition save : M unit :=
  log CallSave ;;;
  modify (fun s => match rag s with
                   | Some v => set_vector_disk v s
                   | None => s
                   end).

(** *** The handlers *)

Definition jsonify (o : gmap string json) (code : Z) : response := Response code (Json o).

(** [try: os.remove(p)  except Exception: pass] *)
Definition remove_quietly (p : string) : M unit :=
  try_except (os_remove p) (fun _ => ret tt).

Definition already_processed : string := "File already processed earlier. Ready to chat!".
Definition stored_successfully : string := "File uploaded, processed, and stored successfully!".
Definition extraction_failed : string := "Failed to extract text from PDF".

(** [POST /upload]. The [for] loop over the manifest, which returns at the
    first record with the hash of the upload, is the test [existsb]. *)
Definition upload_file (files : gmap string FileStorage) (clk : clock) : M response :=
  match files !! "file" with
  | None => ret (jsonify {[ "error" := JStr "No file part" ]} 400)
  | Some file =>
    if String.eqb (filename file) ""
    then ret (jsonify {[ "error" := JStr "No selected file" ]} 400)
    else
      let filename' := secure_filename L (filename file) in
      let temp_path := join_path UPLOAD_FOLDER filename' in
      file_save file temp_path ;;;
      file_hash <- compute_file_hash temp_path 8192 ;;
      processed_index <- load_processed_index ;;
      if existsb (fun rec => bool_decide (rec !! "hash" = Some file_hash)) processed_index
      then
        remove_quietly temp_path ;;;
        ret (jsonify {[ "message" := JStr already_processed ]} 200)
      else
        pdf_text <- extract_text_from_pdf temp_path ;;
        if negb (truthy pdf_text)
        then
          remove_quietly temp_path ;;;
          ret (jsonify {[ "error" := JStr extraction_failed ]} 500)
        else
          let doc_obj := {| page_content := pdf_text;
                            metadata := {[ "source_filename" := filename' ]} |} in
          log CallEmbeddingPipeline ;;;
          log CallChunkDocuments ;;;
          chunks <- lift (chunk_documents L [doc_obj]) ;;
          log CallEmbedChunks ;;;
          embeddings <- lift (embed_chunks L chunks) ;;
          let arr := embeddings in
          rag_instance <- get_rag ;;
          let metas := map (fun c => {[ "text" := page_content c ]}) chunks in
          match index rag_instance with
          | None => add_embeddings arr metas ;;; save
          | Some _ => add_embeddings arr metas ;;; save
          end ;;;
          let dest_name := filename' in
          let dest_path := join_path PROCESSED_FOLDER dest_name in
          taken <- os_path_exists dest_path ;;
          let '(dest_name, dest_path) :=
            if (taken : bool) then
              let '(base, ext) := splitext dest_name in
              let ts := strftime_compact (at_suffix clk) in
              let dest_name := base +:+ "_" +:+ ts +:+ ext in
              (dest_name, join_path PROCESSED_FOLDER dest_name)
            else (dest_name, dest_path) in
          os_rename temp_path dest_path ;;;
          let new_rec : record :=
            <[ "filename" := dest_name ]>
            (<[ "hash" := file_hash ]>
            (<[ "processed_at" := isoformat (at_record clk) +:+ "Z" ]>
            {[ "path" := dest_path ]})) in
          save_processed_index (processed_index ++ [new_rec]) ;;;
          ret (jsonify (<[ "message" := JStr stored_successfully ]>
                        {[ "file" := JDict new_rec ]}) 200)
  end.

(** [GET /processed] *)
Definition list_processed : M response :=
  processed_index <- load_processed_index ;;
  let processed_index_sorted :=
    sorted_reverse (fun x : record => default "" (x !! "processed_at")) processed_index in
  ret (jsonify {[ "processed" := JList processed_index_sorted ]} 200).

(** [POST /chat] *)
Definition chat (json_body : gmap string string) : M response :=
  rag_instance <- get_rag ;;
  let user_message := default "" (json_body !! "message") in
  if negb (truthy user_message)
  then ret (jsonify {[ "error" := JStr "Message cannot be empty" ]} 400)
  else
    log (CallSearchAndSummarize user_message) ;;;
    response <- lift (search_and_summarize L rag_instance user_message) ;;
    ret (jsonify {[ "response" := JStr response ]} 200).

(** [send_from_directory]: the file, or [NotFound]. *)
Definition send_from_directory (directory path : string) : M response :=
  try_except (content <- open_read (join_path directory path) ;;
              ret (Response 200 (Static content)))
             (fun _ => raise NotFound).

(** [GET /] and [GET /<path>] *)
Definition serve_react (path : string) : M response :=
  present <- os_path_exists (join_path "build" path) ;;
  if truthy path && present
  then send_from_directory "build" path
  else send_from_directory "build" "index.html".

Definition handle (r : request) : M response :=
  match r with
  | POST_upload files clk => upload_file files clk
  | GET_processed => list_processed
  | POST_chat json_body => chat json_body
  | GET_static path => serve_react path
  end.

(** The status the client sees: an exception that leaves a handler becomes
    the framework's 404 or 500. *)
Definition http_status (r : result response) : Z :=
  match r with
  | Ok resp => status resp
  | Raise NotFound => 404
  | Raise _ => 500
  end.

(** *** Runs *)

(** The state after a request, and after a sequence of requests. *)
Definition step (s : state) (r : request) : state := fst (handle r s).

Definition run (s : state) (rs : list request) : state := fold_left step rs s.

(** The answers to a sequence of requests, in order. *)
Fixpoint answers (s : state) (rs : list request) : list (result response) :=
  match rs with
  | [] => []
  | r :: rs' => snd (handle r s) :: answers (step s r) rs'
  end.

(** When the module is loaded the manifest is created empty, unless one
    is already there; a first start thus begins with an empty manifest. *)
Definition fresh (s : state) : Prop :=
  manifest s = Records [] /\ rag s = None.

(** A restart keeps the files and loses the global [rag]. *)
Definition restart (s : state) : state := set_rag None s.

Inductive reachable : state -> Prop :=
| reachable_fresh s : fresh s -> reachable s
| reachable_step s r : reachable s -> reachable (step s r)
| reachable_restart s : reachable s -> reachable (restart s).

(** The records the handlers see. *)
Definition records (s : state) : list record :=
  match manifest s with
  | Records l => l
  | Unparseable => []
  end.

End Handlers.

(** An instance of the libraries for closed runs: file names are kept as
    they are, a file is a PDF of one page whose text is its bytes, a document
    is one chunk, and the vector of a chunk is its length. *)
Definition text_of_bytes (bs : list byte) : string :=
  String.string_of_list_ascii (map Ascii.ascii_of_byte bs).
Definition bytes_of_text (s : string) : list byte :=
  map Ascii.byte_of_ascii (String.list_ascii_of_string s).

Definition demo : Libs := {|
  vec := nat;
  secure_filename := fun name => name;
  PdfReader := fun content => Ok (NextPage (Ok (Some (text_of_bytes content))) NoMorePages);
  chunk_documents := fun docs => Ok docs;
  embed_chunks := fun chunks => Ok (map (fun c => String.length (page_content c)) chunks);
  search_and_summarize := fun _ query => Ok query
|}.

End App.

(* ===================================================================== *)
(** ** Vocabulary of the statements *)
(* ===================================================================== *)

Import Hashlib Py App.

(** A lower-case hexadecimal digit. *)
Definition is_hex (c : ascii) : bool :=
  let n := Z.of_N (N_of_ascii c) in
  ((48 <=? n) && (n <=? 57)) || ((97 <=? n) && (n <=? 102)).

(** [desc key a b]: [a] may stand before [b] when keys descend. *)
Definition desc {A : Type} (key : A -> string) (a b : A) : Prop :=
  String.le (key b) (key a).

(** The sort key of [GET /processed]. *)
Definition processed_at (x : record) : string := default "" (x !! "processed_at").

Definition hash_of (rec : record) : option string := rec !! "hash".

Definition hashed (l : list record) : Prop :=
  Forall (fun rec => is_Some (hash_of rec)) l.

(** The record an ingestion writes, and the answer that carries it. *)
Definition new_record (dest_name file_hash stamp dest_path : string) : record :=
  <[ "filename" := dest_name ]>
  (<[ "hash" := file_hash ]>
  (<[ "processed_at" := stamp ]>
  {[ "path" := dest_path ]})).

Definition stored_response (rec : record) : response :=
  jsonify (<[ "message" := JStr stored_successfully ]> {[ "file" := JDict rec ]}) 200.

(** The text of a page as far as it can be recovered, and the pages a
    reader gives before it ends or fails. *)
Definition recovered (extract_text : result (option string)) : string :=
  match extract_text with
  | Ok (Some txt) => txt
  | _ => ""
  end.

Fixpoint readable_pages (pages : page_iter) : list (result (option string)) :=
  match pages with
  | NextPage extract_text rest => extract_text :: readable_pages rest
  | _ => []
  end.

Section Vocabulary.
Variable L : Libs.

(** Where an upload is first saved. *)
Definition temp_path_of (file : FileStorage) : string :=
  join_path UPLOAD_FOLDER (secure_filename L (filename file)).

(** The state once [file.save] has run. *)
Definition saved (file : FileStorage) (s : state L) : state L :=
  set_fs L (insert (temp_path_of file) (stream file)) s.

(** The recoverable text of a PDF: the recovered texts of its readable
    pages, joined by blank lines and stripped. *)
Definition text_of_pdf (content : list byte) : string :=
  match PdfReader L content with
  | Ok pages => strip (join blank_line (map recovered (readable_pages pages)))
  | Raise _ => ""
  end.

Definition recoverable_text (s : state L) (path : string) : string :=
  match fs L s !! path with
  | Some content => text_of_pdf content
  | None => ""
  end.

(** The linear scan of the manifest for a hash. *)
Definition has_hash (h : string) (l : list record) : bool :=
  existsb (fun rec : record => bool_decide (rec !! "hash" = Some h)) l.

(** Two states that differ at most in the text of the manifest file. *)
Definition same_but_manifest (s1 s2 : state L) : Prop :=
  fs L s1 = fs L s2 /\ rag L s1 = rag L s2 /\
  vector_disk L s1 = vector_disk L s2 /\ calls L s1 = calls L s2.

(** The part of [upload_file] that follows the two early returns: chunking,
    embedding, the vector store, the move into [processed_data] and the new
    manifest record. *)
Definition index_and_store (filename' temp_path file_hash : string)
    (processed_index : list record) (pdf_text : string) (clk : clock) : M L response :=
  bind L (log L CallEmbeddingPipeline) (fun _ =>
  bind L (log L CallChunkDocuments) (fun _ =>
  bind L (lift L (chunk_documents L
            [{| page_content := pdf_text;
                metadata := {[ "source_filename" := filename' ]} |}])) (fun chunks =>
  bind L (log L CallEmbedChunks) (fun _ =>
  bind L (lift L (embed_chunks L chunks)) (fun embeddings =>
  bind L (get_rag L) (fun rag_instance =>
  bind L (match index rag_instance with
          | None => bind L (add_embeddings L embeddings
                              (map (fun c => {[ "text" := page_content c ]}) chunks))
                           (fun _ => save L)
          | Some _ => bind L (add_embeddings L embeddings
                              (map (fun c => {[ "text" := page_content c ]}) chunks))
                           (fun _ => save L)
          end) (fun _ =>
  bind L (os_path_exists L (join_path PROCESSED_FOLDER filename')) (fun taken =>
    let '(dest_name, dest_path) :=
      if (taken : bool) then
        let '(base, ext) := splitext filename' in
        let ts := strftime_compact (at_suffix clk) in
        let dest_name := base +:+ "_" +:+ ts +:+ ext in
        (dest_name, join_path PROCESSED_FOLDER dest_name)
      else (filename', join_path PROCESSED_FOLDER filename') in
    bind L (os_rename L temp_path dest_path) (fun _ =>
    bind L (save_processed_index L
              (processed_index ++
               [new_record dest_name file_hash (isoformat (at_record clk) +:+ "Z") dest_path]))
           (fun _ =>
    ret L (stored_response
             (new_record dest_name file_hash (isoformat (at_record clk) +:+ "Z")
                dest_path)))))))))))).

(** Whether [os.path.exists(p)] holds, and the path under which the tail
    of an upload stores a file named [name]. *)
Definition taken (s : state L) (p : string) : bool :=
  is_dir p || bool_decide (p = PROCESSED_INDEX) || bool_decide (is_Some (fs L s !! p)).

Definition stored_path (name : string) (clk : clock) (s : state L) : string :=
  if taken s (join_path PROCESSED_FOLDER name) then
    let '(base, ext) := splitext name in
    join_path PROCESSED_FOLDER (base +:+ "_" +:+ strftime_compact (at_suffix clk) +:+ ext)
  else join_path PROCESSED_FOLDER name.

End Vocabulary.

(** *** A concrete run

    Three PDFs with different contents are uploaded under the same name;
    the second and the third are handled within the same second. *)
Definition empty_store : state demo :=
  State demo ∅ (Records []) None (VectorStore None []) [].

Definition pdf (name text : string) : gmap string FileStorage :=
  {[ "file" := {| filename := name; stream := bytes_of_text text |} ]}.

Definition at_time (h m sec us1 us2 : Z) : clock :=
  {| at_suffix := Datetime 2026 11 3 h m sec us1;
     at_record := Datetime 2026 11 3 h m sec us2 |}.

Definition first_upload : request := POST_upload (pdf "a.pdf" "wheat") (at_time 9 5 1 120000 480000).
Definition second_upload : request := POST_upload (pdf "a.pdf" "maize") (at_time 9 5 2 100000 300000).
Definition third_upload : request := POST_upload (pdf "a.pdf" "paddy") (at_time 9 5 2 700000 900000).

Definition paths (s : state demo) : list (option string) :=
  map (fun rec : record => rec !! "path") (records demo s).

Definition stored (s : state demo) (p : string) : option string :=
  text_of_bytes <$> fs demo s !! p.

Definition statuses (rs : list (result response)) : list Z := map http_status rs.

(* ===================================================================== *)
(** ** Vocabulary of the further properties *)
(* ===================================================================== *)

(** Decidable equality of answers. *)
#[global] Instance byte_eq_dec : EqDecision byte := Byte.byte_eq_dec.
#[global] Instance exn_eq_dec : EqDecision exn.
Proof. solve_decision. Defined.
#[global] Instance json_eq_dec : EqDecision json.
Proof. solve_decision. Defined.
#[global] Instance body_eq_dec : EqDecision body.
Proof. solve_decision. Defined.
#[global] Instance response_eq_dec : EqDecision response.
Proof. solve_decision. Defined.
#[global] Instance result_eq_dec {A} `{EqDecision A} : EqDecision (result A).
Proof. solve_decision. Defined.

(** The record carried by the answer of a stored upload, if it is one. *)
Definition stored_record (r : result response) : option record :=
  match r with
  | Ok (Response _ (Json o)) =>
      match o !! "file" with
      | Some (JDict rec) => if decide (r = Ok (stored_response rec)) then Some rec else None
      | _ => None
      end
  | _ => None
  end.

(** A well-formed manifest record: the four fields an ingestion writes,
    with a SHA-256 digest in hexadecimal, a UTC time stamp in ISO format and
    the path of the file name below the folder of processed files. *)
Definition well_formed (rec : record) : Prop :=
  exists name h d,
    rec = new_record name h (isoformat d +:+ "Z") (join_path PROCESSED_FOLDER name)
    /\ String.length h = 64%nat
    /\ forallb is_hex (String.list_ascii_of_string h) = true.

(** A request that [upload_file] refuses before it saves anything. *)
Definition rejected (files : gmap string FileStorage) : bool :=
  match files !! "file" with
  | None => true
  | Some file => String.eqb (filename file) ""
  end.

Definition is_construction (c : call) : bool :=
  match c with
  | CallRAGSearch => true
  | _ => false
  end.

(** How many times [RAGSearch] was constructed. *)
Definition constructions (cs : list call) : nat := length (List.filter is_construction cs).

(** Only white space. *)
Definition blank (s : string) : bool := forallb isspace (String.list_ascii_of_string s).

(** [ascending key l]: the keys strictly increase along [l]. *)
Definition ascending {A : Type} (key : A -> string) (l : list A) : Prop :=
  StronglySorted (fun a b => String.ltb (key a) (key b) = true) l.

(** Dates and times whose fields fit the widths they are printed in. *)
Definition in_range (d : datetime) : Prop :=
  0 <= year d < 10000 /\ 0 <= month d < 100 /\ 0 <= day d < 100 /\
  0 <= hour d < 100 /\ 0 <= minute d < 100 /\ 0 <= second d < 100 /\
  0 <= microsecond d < 1000000.

(** Comparison of two lists of integers, the first difference deciding. *)
Fixpoint lex (l1 l2 : list Z) : comparison :=
  match l1, l2 with
  | x :: r1, y :: r2 =>
      match Z.compare x y with
      | Eq => lex r1 r2
      | c => c
      end
  | [], [] => Eq
  | [], _ :: _ => Lt
  | _ :: _, [] => Gt
  end.

Definition to_second (d : datetime) : list Z :=
  [year d; month d; day d; hour d; minute d; second d].

(** How two [processed_at] stamps compare as strings: by the time to the
    second; within one second, a stamp without a fraction is above every
    stamp with one, and two fractions compare by their value. *)
Definition stamp_order (d1 d2 : datetime) : comparison :=
  match lex (to_second d1) (to_second d2) with
  | Eq =>
      match microsecond d1 =? 0, microsecond d2 =? 0 with
      | true, true => Eq
      | true, false => Gt
      | false, true => Lt
      | false, false => Z.compare (microsecond d1) (microsecond d2)
      end
  | c => c
  end.

Section FurtherVocabulary.
Variable L : Libs.

(** The name under which the tail of an upload stores a file named [name];
    [stored_path] is that name below the folder of processed files. *)
Definition stored_name (name : string) (clk : clock) (s : state L) : string :=
  if taken L s (join_path PROCESSED_FOLDER name) then
    let '(base, ext) := splitext name in
    base +:+ "_" +:+ strftime_compact (at_suffix clk) +:+ ext
  else name.

Definition doc_of (file : FileStorage) : SimpleDoc :=
  {| page_content := text_of_pdf L (stream file);
     metadata := {[ "source_filename" := secure_filename L (filename file) ]} |}.

Definition stamp_of (clk : clock) : string := isoformat (at_record clk) +:+ "Z".

(** [later s s']: [s'] is reached from [s] by requests and restarts. *)
Inductive later (s : state L) : state L -> Prop :=
| later_now : later s s
| later_step s' r : later s s' -> later s (step L s' r)
| later_restart s' : later s s' -> later s (restart L s').

End FurtherVocabulary.

(** The libraries of [demo], with an embedding model that fails. *)
Definition failing : Libs := {|
  vec := nat;
  secure_filename := fun name => name;
  PdfReader := fun content => Ok (NextPage (Ok (Some (text_of_bytes content))) NoMorePages);
  chunk_documents := fun docs => Ok docs;
  embed_chunks := fun _ => Raise (LibraryError "embed_chunks");
  search_and_summarize := fun _ query => Ok query
|}.

Definition failing_store : state failing :=
  State failing ∅ (Records []) None (VectorStore None []) [].

Definition wheat : FileStorage := {| filename := "a.pdf"; stream := bytes_of_text "wheat" |}.

Definition with_old_file : state demo :=
  set_fs demo (insert "data/a.pdf" (bytes_of_text "older")) empty_store.

(* ===================================================================== *)
(** ** Lemmas on the library functions *)
(* ===================================================================== *)

Section HashlibFacts.

Lemma absorb_with_app step h buf d1 d2 :
  absorb_with step h buf (d1 ++ d2) =
  let '(h', buf') := absorb_with step h buf d1 in absorb_with step h' buf' d2.
Proof.
  revert h buf. induction d1 as [|b d1 IH]; intros h buf; [reflexivity|].
  cbn [absorb_with app]. destruct (length (buf ++ [b]) =? 64)%nat; apply IH.
Qed.

(** [h.update(a); h.update(b)] is [h.update(a + b)]. *)
Lemma update_app o a b : update (update o a) b = update o (a ++ b).
Proof.
  unfold update, absorb. rewrite absorb_with_app.
  destruct (absorb_with compress (hv o) (pending o) a) as [h' buf']. cbn.
  destruct (absorb_with compress h' buf' b) as [h'' buf''].
  f_equal. rewrite length_app. lia.
Qed.

Lemma update_nil o : update o [] = o.
Proof. destruct o as [h p c]. unfold update. cbn. f_equal. lia. Qed.

Lemma hexdigest_length o : String.length (hexdigest o) = 64%nat.
Proof.
  unfold hexdigest. destruct (digest_words o) as [[[[[[[a b] c] d] e] f] g] h].
  reflexivity.
Qed.

Lemma hex_digit_is_hex n : is_hex (hex_digit n) = true.
Proof.
  unfold hex_digit. cbv zeta.
  pose proof (Z.mod_pos_bound n 16 ltac:(lia)) as Hd.
  set (d := n mod 16) in *.
  assert (Hc : d = 0 \/ d = 1 \/ d = 2 \/ d = 3 \/ d = 4 \/ d = 5 \/ d = 6 \/ d = 7 \/
               d = 8 \/ d = 9 \/ d = 10 \/ d = 11 \/ d = 12 \/ d = 13 \/ d = 14 \/ d = 15)
    by lia.
  clearbody d. decompose [or] Hc; subst d; reflexivity.
Qed.

Lemma hex32_is_hex x : forallb is_hex (String.list_ascii_of_string (hex32 x)) = true.
Proof.
  unfold hex32. cbn [String.list_ascii_of_string forallb].
  rewrite !hex_digit_is_hex. reflexivity.
Qed.

Lemma list_ascii_app s t :
  String.list_ascii_of_string (s +:+ t) =
  String.list_ascii_of_string s ++ String.list_ascii_of_string t.
Proof.
  induction s as [|c s IH]; [reflexivity|].
  change (String c s +:+ t) with (String c (s +:+ t)).
  cbn [String.list_ascii_of_string]. rewrite IH. reflexivity.
Qed.

Lemma hexdigest_is_hex o :
  forallb is_hex (String.list_ascii_of_string (hexdigest o)) = true.
Proof.
  unfold hexdigest. destruct (digest_words o) as [[[[[[[a b] c] d] e] f] g] h].
  cbv beta iota.
  rewrite !list_ascii_app, !forallb_app, !hex32_is_hex. reflexivity.
Qed.

End HashlibFacts.

Section ReadLoop.

Lemma read_app n f chunk f' : read n f = (chunk, f') -> chunk ++ f' = f.
Proof.
  unfold read. destruct (n <? 0); intros [= <- <-].
  - apply app_nil_r.
  - apply take_drop.
Qed.

Lemma read_nil n f f' : n <> 0 -> read n f = ([], f') -> f = [].
Proof.
  unfold read. destruct (n <? 0) eqn:E; intros Hn [= H1 H2]; [assumption|].
  destruct f; [reflexivity|]. destruct (Z.to_nat n) eqn:E'; [lia|discriminate].
Qed.

(** Whatever the size of the chunks, the loop leaves the hash object as
    one [update] with the whole file does. *)
Lemma hash_loop_update chunk_size h f :
  chunk_size <> 0 -> hash_loop chunk_size h f = update h f.
Proof.
  intros Hn. funelim (hash_loop chunk_size h f).
  - clear H Heqcall. apply read_nil in e; [|assumption]. subst f.
    symmetry. apply update_nil.
  - clear H0 Heqcall. rewrite H by assumption. rewrite update_app.
    f_equal. eapply read_app, e.
Qed.


End ReadLoop.

Section SortedFacts.
Context {A : Type} (key : A -> string).

Lemma ltb_false_le a b : String.ltb a b = false -> String.le b a.
Proof.
  unfold String.ltb, String.le, String.leb. rewrite (String.compare_antisym b a).
  destruct (String.compare a b); simpl; [done|discriminate|done].
Qed.

Lemma ltb_true_le a b : String.ltb a b = true -> String.le a b.
Proof.
  unfold String.ltb, String.le, String.leb.
  destruct (String.compare a b); simpl; [discriminate|done|discriminate].
Qed.

Lemma ltb_true_ne a b : String.ltb a b = true -> a <> b.
Proof.
  intros H ->. unfold String.ltb in H.
  assert (String.compare b b = Eq) as E.
  { pose proof (String.compare_antisym b b) as Ha.
    destruct (String.compare b b); simpl in Ha; congruence. }
  rewrite E in H. discriminate.
Qed.

Lemma insert_desc_perm x l : insert_desc key x l ≡ₚ x :: l.
Proof.
  induction l as [|y r IH]; cbn; [reflexivity|].
  destruct (String.ltb (key x) (key y)); [|reflexivity].
  rewrite IH. apply Permutation_swap.
Qed.

Lemma sorted_reverse_perm l : sorted_reverse key l ≡ₚ l.
Proof.
  induction l as [|x l IH]; cbn; [reflexivity|].
  rewrite insert_desc_perm. by rewrite IH.
Qed.

Lemma insert_desc_sorted x l :
  StronglySorted (desc key) l -> StronglySorted (desc key) (insert_desc key x l).
Proof.
  induction 1 as [|y r Hs IH Hall]; cbn.
  - repeat constructor.
  - destruct (String.ltb (key x) (key y)) eqn:E.
    + constructor; [exact IH|].
      rewrite insert_desc_perm. constructor; [|exact Hall].
      by apply ltb_true_le.
    + apply ltb_false_le in E.
      constructor; [by constructor|].
      constructor; [exact E|].
      eapply Forall_impl; [exact Hall|].
      intros z Hz. unfold desc in *. by etrans.
Qed.

Lemma sorted_reverse_sorted l : StronglySorted (desc key) (sorted_reverse key l).
Proof.
  induction l as [|x l IH]; cbn; [constructor|]. by apply insert_desc_sorted.
Qed.

(** The sort is stable: the elements with a given key keep their order. *)
Lemma insert_desc_filter k x l :
  filter (fun a => key a = k) (insert_desc key x l) =
  filter (fun a => key a = k) (x :: l).
Proof.
  induction l as [|y r IH]; [reflexivity|]. cbn [insert_desc].
  destruct (String.ltb (key x) (key y)) eqn:E; [|reflexivity].
  rewrite (filter_cons _ y), IH, !filter_cons.
  apply ltb_true_ne in E.
  repeat case_decide; try reflexivity. congruence.
Qed.

Lemma sorted_reverse_stable k l :
  filter (fun a => key a = k) (sorted_reverse key l) = filter (fun a => key a = k) l.
Proof.
  induction l as [|x l IH]; [reflexivity|]. cbn [sorted_reverse foldr].
  rewrite insert_desc_filter, !filter_cons.
  fold (sorted_reverse key l). rewrite IH. reflexivity.
Qed.

End SortedFacts.

Section PathFacts.

Lemma length_append s t : String.length (s +:+ t) = (String.length s + String.length t)%nat.
Proof.
  induction s as [|c s IH]; [reflexivity|].
  change (String c s +:+ t) with (String c (s +:+ t)). cbn. by rewrite IH.
Qed.

Lemma append_nil_r s : s +:+ "" = s.
Proof.
  induction s as [|c s IH]; [reflexivity|].
  change (String c s +:+ "") with (String c (s +:+ "")). by rewrite IH.
Qed.

Lemma substring_whole s : String.substring 0 (String.length s) s = s.
Proof. induction s as [|c s IH]; [reflexivity|]. cbn. by rewrite IH. Qed.

(** [s[:n] + s[n:]] is [s]. *)
Lemma substring_split n s :
  (n <= String.length s)%nat ->
  String.substring 0 n s +:+ String.substring n (String.length s - n) s = s.
Proof.
  revert s. induction n as [|n IH]; intros s Hn.
  - rewrite Nat.sub_0_r, substring_whole. by destruct s.
  - destruct s as [|c s]; [cbn in Hn; lia|]. cbn in Hn. cbn [String.length Nat.sub String.substring].
    change (String c ?a +:+ ?b) with (String c (a +:+ b)).
    rewrite IH by lia. reflexivity.
Qed.

Lemma rfind_from_bound c s i found :
  found < i ->
  rfind_from c s i found = found \/
  i <= rfind_from c s i found < i + Z.of_nat (String.length s).
Proof.
  revert i found. induction s as [|d s IH]; intros i found Hf; [by left|].
  cbn [rfind_from String.length]. destruct (Ascii.eqb d c).
  - right. destruct (IH (i + 1) i ltac:(lia)) as [->|?]; lia.
  - destruct (IH (i + 1) found ltac:(lia)) as [->|?]; [by left|right; lia].
Qed.

Lemma rfind_bound c s : -1 <= rfind c s < Z.of_nat (String.length s).
Proof.
  unfold rfind. destruct (rfind_from_bound c s 0 (-1) ltac:(lia)) as [->|?]; lia.
Qed.

(** [splitext] splits: root and extension make up the name. *)
Lemma splitext_app p base ext : splitext p = (base, ext) -> base +:+ ext = p.
Proof.
  unfold splitext.
  pose proof (rfind_bound "/" p) as Hs. pose proof (rfind_bound "." p) as Hd.
  destruct (_ && _) eqn:E; intros [= <- <-]; [|apply append_nil_r].
  apply andb_true_iff in E as [E _]. apply Z.ltb_lt in E.
  unfold slice. rewrite Z.sub_0_r.
  replace (Z.to_nat (Z.of_nat (String.length p) - rfind "." p))
    with (String.length p - Z.to_nat (rfind "." p))%nat by lia.
  apply substring_split. lia.
Qed.

(** A suffixed name is never the name it was made from. *)
Lemma suffixed_name_differs p base ext ts :
  splitext p = (base, ext) -> base +:+ "_" +:+ ts +:+ ext <> p.
Proof.
  intros Hsp%splitext_app Heq. subst p.
  apply (f_equal String.length) in Heq. rewrite !length_append in Heq. cbn in Heq. lia.
Qed.

Lemma join_path_relative a b :
  startswith "/" b = false -> truthy a = true -> endswith "/" a = false ->
  join_path a b = a +:+ "/" +:+ b.
Proof. unfold join_path. by intros -> -> ->. Qed.

End PathFacts.

(** *** The library models on known values *)

Example sha256_abc :
  sha256_hex (bytes_of_text "abc") =
  "ba7816bf8f01cfea414140de5dae2223b00361a396177a9cb410ff61f20015ad".
Proof. vm_compute. reflexivity. Qed.

Example sha256_empty :
  sha256_hex [] = "e3b0c44298fc1c149afbf4c8996fb92427ae41e4649b934ca495991b7852b855".
Proof. vm_compute. reflexivity. Qed.

Example sha256_two_blocks :
  sha256_hex (bytes_of_text "abcdbcdecdefdefgefghfghighijhijkijkljklmklmnlmnomnopnopq") =
  "248d6a61d20638b8e5c026930c3e6039a33ce45964ff2167f6ecedd419db06c1".
Proof. vm_compute. reflexivity. Qed.

Example hash_loop_three_byte_chunks :
  hexdigest (hash_loop 3 sha256 (bytes_of_text "abcdbcdecdefdefg")) =
  sha256_hex (bytes_of_text "abcdbcdecdefdefg").
Proof. vm_compute. reflexivity. Qed.

Example splitext_examples :
  splitext "report.final.pdf" = ("report.final", ".pdf")
  /\ splitext ".bashrc" = (".bashrc", "")
  /\ splitext "notes" = ("notes", "")
  /\ splitext "a." = ("a", ".").
Proof. repeat split. Qed.

Example strip_example : strip (String "009" (" a b " +:+ blank_line)) = "a b".
Proof. reflexivity. Qed.

Example isoformat_examples :
  isoformat (Datetime 2026 11 3 9 5 2 300000) = "2026-11-03T09:05:02.300000"
  /\ isoformat (Datetime 2026 11 3 9 5 2 0) = "2026-11-03T09:05:02"
  /\ strftime_compact (Datetime 2026 11 3 9 5 2 300000) = "20261103090502".
Proof. repeat split. Qed.

Example sorted_reverse_example :
  sorted_reverse fst [("b", 1); ("a", 2); ("c", 3); ("b", 4); ("a", 5)] =
  [("c", 3); ("b", 1); ("b", 4); ("a", 2); ("a", 5)].
Proof. reflexivity. Qed.

(* ===================================================================== *)
(** ** Lemmas on the handlers *)
(* ===================================================================== *)

Ltac run_monad :=
  unfold get_rag, RAGSearch, add_embeddings, save, os_path_exists, os_rename,
    save_processed_index, log, json_load;
  unfold bind, try_except, lift, modify, gets, ret, raise.

(** An answer that is not the one of a stored upload. *)
Ltac not_stored :=
  let r0 := fresh "rec" in
  let E := fresh "E" in
  intros r0 E;
  first [ discriminate E
        | injection E as E; unfold jsonify, stored_response in E;
          first [ discriminate E
                | injection E as E; apply (f_equal (fun o => o !! "file")) in E;
                  discriminate E ] ].

Section HandlerFacts.
Variable L : Libs.
Implicit Types (s : state L) (l : list record).

Lemma compute_file_hash_found s path content chunk_size :
  fs L s !! path = Some content -> chunk_size <> 0 ->
  compute_file_hash L path chunk_size s = (s, Ok (sha256_hex content)).
Proof.
  intros Hf Hn. unfold compute_file_hash, open_read, bind, gets, ret.
  rewrite Hf. rewrite hash_loop_update by assumption. reflexivity.
Qed.

Lemma page_text_recovered p : page_text p = recovered p.
Proof. destruct p as [[[|c txt]|]|e]; reflexivity. Qed.

Lemma extract_pages_parts pages acc :
  fst (extract_pages pages acc) = acc ++ map recovered (readable_pages pages).
Proof.
  revert acc. induction pages as [|e|p rest IH]; intros acc; cbn.
  - by rewrite app_nil_r.
  - by rewrite app_nil_r.
  - rewrite IH, page_text_recovered, <- app_assoc. reflexivity.
Qed.

Lemma extract_text_from_pdf_run s path :
  extract_text_from_pdf L path s = (s, Ok (recoverable_text L s path)).
Proof.
  unfold extract_text_from_pdf, recoverable_text, text_of_pdf, open_read, bind, gets, ret, raise.
  destruct (fs L s !! path) as [content|]; [|reflexivity].
  destruct (PdfReader L content) as [pages|e]; [|reflexivity].
  pose proof (extract_pages_parts pages []) as Hp.
  destruct (extract_pages pages []) as [parts [[]|e]]; cbn in Hp; subst parts; reflexivity.
Qed.

Lemma load_processed_index_records s :
  load_processed_index L s = (s, Ok (records L s)).
Proof.
  unfold load_processed_index, records. run_monad.
  destruct (manifest L s); reflexivity.
Qed.

Lemma remove_quietly_run s p :
  remove_quietly L p s = (set_fs L (delete p) s, Ok tt).
Proof.
  unfold remove_quietly, os_remove. run_monad.
  destruct (fs L s !! p) eqn:E; [reflexivity|].
  f_equal. destruct s as [f m r v c]. unfold set_fs. cbn in *. f_equal.
  symmetry. by apply delete_id.
Qed.

Lemma unsave file s :
  set_fs L (delete (temp_path_of L file)) (saved L file s) =
  set_fs L (delete (temp_path_of L file)) s.
Proof.
  destruct s as [f m r v c]. unfold saved, set_fs. cbn. f_equal.
  apply delete_insert_eq.
Qed.

(** [upload_file] up to the end of its early returns. *)
Lemma upload_file_unfold files clk s :
  upload_file L files clk s =
  match files !! "file" with
  | None => (s, Ok (jsonify {[ "error" := JStr "No file part" ]} 400))
  | Some file =>
      if String.eqb (filename file) ""
      then (s, Ok (jsonify {[ "error" := JStr "No selected file" ]} 400))
      else
        let temp_path := temp_path_of L file in
        if is_dir temp_path then (s, Raise (IsADirectoryError temp_path))
        else
          let file_hash := sha256_hex (stream file) in
          if has_hash file_hash (records L s)
          then (set_fs L (delete temp_path) s,
                Ok (jsonify {[ "message" := JStr already_processed ]} 200))
          else if negb (truthy (text_of_pdf L (stream file)))
          then (set_fs L (delete temp_path) s,
                Ok (jsonify {[ "error" := JStr extraction_failed ]} 500))
          else index_and_store L (secure_filename L (filename file)) temp_path file_hash
                 (records L s) (text_of_pdf L (stream file)) clk (saved L file s)
  end.
Proof.
  unfold upload_file. destruct (files !! "file") as [file|]; [|reflexivity].
  destruct (String.eqb (filename file) ""); [reflexivity|]. cbv zeta.
  fold (temp_path_of L file).
  unfold bind at 1. unfold file_save.
  destruct (is_dir (temp_path_of L file)); [reflexivity|].
  unfold modify at 1. fold (saved L file s).
  assert (Hf : fs L (saved L file s) !! temp_path_of L file = Some (stream file))
    by apply lookup_insert_eq.
  unfold bind at 1. rewrite (compute_file_hash_found _ _ _ _ Hf) by discriminate.
  unfold bind at 1. rewrite load_processed_index_records.
  change (records L (saved L file s)) with (records L s).
  fold (has_hash (sha256_hex (stream file)) (records L s)).
  destruct (has_hash _ _).
  - unfold bind, ret. rewrite remove_quietly_run, unsave. reflexivity.
  - unfold bind at 1. rewrite extract_text_from_pdf_run.
    unfold recoverable_text. rewrite Hf.
    destruct (negb (truthy (text_of_pdf L (stream file)))).
    + unfold bind, ret. rewrite remove_quietly_run, unsave. reflexivity.
    + reflexivity.
Qed.

(** The tail either raises and leaves the manifest as it was, or answers
    with the new record, appended to the records that were loaded. *)
Lemma index_and_store_cases name temp h idx txt clk s :
  (exists e, snd (index_and_store L name temp h idx txt clk s) = Raise e /\
             manifest L (fst (index_and_store L name temp h idx txt clk s)) = manifest L s) \/
  (exists dest_name dest_path,
     let rec := new_record dest_name h (isoformat (at_record clk) +:+ "Z") dest_path in
     snd (index_and_store L name temp h idx txt clk s) = Ok (stored_response rec) /\
     manifest L (fst (index_and_store L name temp h idx txt clk s)) = Records (idx ++ [rec])).
Proof.
  destruct s as [f m r v c].
  unfold index_and_store. run_monad.
  repeat (case_match; simplify_eq/=); eauto.
Qed.

(** The tail does not read the manifest. *)
Lemma index_and_store_manifest name temp h idx txt clk s m :
  snd (index_and_store L name temp h idx txt clk (set_manifest L m s)) =
  snd (index_and_store L name temp h idx txt clk s) /\
  same_but_manifest L (fst (index_and_store L name temp h idx txt clk (set_manifest L m s)))
                      (fst (index_and_store L name temp h idx txt clk s)) /\
  (forall rec, snd (index_and_store L name temp h idx txt clk s) = Ok (stored_response rec) ->
     manifest L (fst (index_and_store L name temp h idx txt clk (set_manifest L m s))) =
     manifest L (fst (index_and_store L name temp h idx txt clk s))) /\
  (forall e, snd (index_and_store L name temp h idx txt clk s) = Raise e ->
     manifest L (fst (index_and_store L name temp h idx txt clk (set_manifest L m s))) = m).
Proof.
  destruct s as [f m0 r v c].
  unfold index_and_store, same_but_manifest, set_manifest. run_monad.
  repeat (case_match; simplify_eq/=); repeat split; try done.
Qed.

Lemma has_hash_spec h l :
  has_hash h l = true <-> exists rec : record, rec ∈ l /\ rec !! "hash" = Some h.
Proof.
  unfold has_hash. rewrite existsb_exists. split.
  - intros (rec & Hin & Hb). exists rec. split; [by apply list_elem_of_In|].
    by apply bool_decide_eq_true in Hb.
  - intros (rec & Hin & Hb). exists rec. split; [by apply list_elem_of_In|].
    by apply bool_decide_eq_true.
Qed.

Lemma has_hash_absent h l :
  has_hash h l = false <-> forall rec : record, rec ∈ l -> rec !! "hash" <> Some h.
Proof.
  split.
  - intros Hf rec Hin Hh. assert (has_hash h l = true) as Ht; [|congruence].
    apply has_hash_spec. by exists rec.
  - intros Hn. destruct (has_hash h l) eqn:E; [|reflexivity].
    apply has_hash_spec in E as (rec & Hin & Hh). by destruct (Hn rec Hin).
Qed.

Lemma has_hash_false h l : has_hash h l = false -> Some h ∉ map hash_of l.
Proof.
  intros Hf Hin. apply list_elem_of_fmap in Hin as (rec & Hh & Hin).
  eapply has_hash_absent; [exact Hf|exact Hin|]. symmetry. exact Hh.
Qed.

Lemma hash_of_new_record n h t p : hash_of (new_record n h t p) = Some h.
Proof. reflexivity. Qed.

Lemma upload_file_manifest files clk s :
  (manifest L (fst (upload_file L files clk s)) = manifest L s /\
   forall rec, snd (upload_file L files clk s) <> Ok (stored_response rec)) \/
  (exists file dest_name dest_path,
     files !! "file" = Some file /\
     let h := sha256_hex (stream file) in
     let rec := new_record dest_name h (isoformat (at_record clk) +:+ "Z") dest_path in
     has_hash h (records L s) = false /\
     snd (upload_file L files clk s) = Ok (stored_response rec) /\
     manifest L (fst (upload_file L files clk s)) = Records (records L s ++ [rec])).
Proof.
  rewrite upload_file_unfold.
  destruct (files !! "file") as [file|] eqn:Hfile.
  2:{ left. split; [reflexivity|]. not_stored. }
  destruct (String.eqb (filename file) "").
  { left. split; [reflexivity|]. not_stored. }
  cbv zeta. destruct (is_dir _).
  { left. split; [reflexivity|]. not_stored. }
  destruct (has_hash _ _) eqn:Hdup.
  { left. split; [reflexivity|]. not_stored. }
  destruct (negb _).
  { left. split; [reflexivity|]. not_stored. }
  match goal with |- context [index_and_store L ?a ?b ?c ?d ?e ?f ?g] =>
    destruct (index_and_store_cases a b c d e f g) as [(e' & Hr & Hm)|(dn & dp & Hr & Hm)] end.
  - left. split; [exact Hm|]. rewrite Hr. not_stored.
  - right. exists file, dn, dp. split; [reflexivity|]. cbv zeta. auto.
Qed.

Lemma list_processed_run s :
  list_processed L s =
  (s, Ok (jsonify {[ "processed" := JList (sorted_reverse processed_at (records L s)) ]} 200)).
Proof.
  unfold list_processed, bind. rewrite load_processed_index_records. reflexivity.
Qed.

Lemma chat_manifest json_body s :
  manifest L (fst (chat L json_body s)) = manifest L s /\
  forall rec, snd (chat L json_body s) <> Ok (stored_response rec).
Proof.
  destruct s as [f m r v c]. unfold chat. run_monad.
  repeat (case_match; simplify_eq/=); (split; [reflexivity|not_stored]).
Qed.

Lemma serve_react_manifest path s :
  fst (serve_react L path s) = s /\
  forall rec, snd (serve_react L path s) <> Ok (stored_response rec).
Proof.
  unfold serve_react, send_from_directory, open_read. run_monad.
  repeat (case_match; simplify_eq/=); (split; [reflexivity|not_stored]).
Qed.

(** Every request either leaves the manifest as it is, or is an upload
    answered with the stored record: that record is appended, and its hash
    was not found by the scan. *)
Lemma handle_manifest r s :
  (manifest L (step L s r) = manifest L s /\
   forall rec, snd (handle L r s) <> Ok (stored_response rec)) \/
  (exists rec h,
     hash_of rec = Some h /\ has_hash h (records L s) = false /\
     snd (handle L r s) = Ok (stored_response rec) /\
     manifest L (step L s r) = Records (records L s ++ [rec])).
Proof.
  unfold step. destruct r as [files clk| |json_body|path]; cbn [handle].
  - destruct (upload_file_manifest files clk s) as [?|(file & dn & dp & _ & Hd & Hr & Hm)];
      [by left|].
    right. eexists _, _. split; [apply hash_of_new_record|]. eauto.
  - left. rewrite list_processed_run. split; [reflexivity|not_stored].
  - left. apply chat_manifest.
  - left. destruct (serve_react_manifest path s) as [-> ?]. by split.
Qed.

Lemma step_unique s r :
  NoDup (map hash_of (records L s)) -> NoDup (map hash_of (records L (step L s r))).
Proof.
  intros Hnd. destruct (handle_manifest r s) as [[Hm _]|(rec & h & Hh & Hd & _ & Hm)];
    unfold records at 1; rewrite Hm; [exact Hnd|].
  rewrite map_app. cbn [map]. rewrite Hh.
  apply NoDup_app. split; [exact Hnd|]. split; [|apply NoDup_singleton].
  intros x Hx Hx'. apply list_elem_of_singleton in Hx' as ->.
  by apply has_hash_false in Hd.
Qed.

Lemma step_hashed s r : hashed (records L s) -> hashed (records L (step L s r)).
Proof.
  intros Hh. destruct (handle_manifest r s) as [[Hm _]|(rec & h & Hr & _ & _ & Hm)];
    unfold records at 1; rewrite Hm; [exact Hh|].
  apply Forall_app. split; [exact Hh|]. constructor; [|constructor].
  rewrite Hr. by eexists.
Qed.

(** The two early returns of an upload that passed the checks on the
    request and was saved. *)
Lemma upload_duplicate_run files clk s file :
  files !! "file" = Some file ->
  filename file <> "" ->
  is_dir (temp_path_of L file) = false ->
  has_hash (sha256_hex (stream file)) (records L s) = true ->
  upload_file L files clk s =
    (set_fs L (delete (temp_path_of L file)) s,
     Ok (jsonify {[ "message" := JStr already_processed ]} 200)).
Proof.
  intros Hfile Hname Hdir Hdup. rewrite upload_file_unfold, Hfile.
  apply String.eqb_neq in Hname. rewrite Hname. cbv zeta.
  rewrite Hdir, Hdup. reflexivity.
Qed.

Lemma upload_empty_run files clk s file :
  files !! "file" = Some file ->
  filename file <> "" ->
  is_dir (temp_path_of L file) = false ->
  has_hash (sha256_hex (stream file)) (records L s) = false ->
  text_of_pdf L (stream file) = "" ->
  upload_file L files clk s =
    (set_fs L (delete (temp_path_of L file)) s,
     Ok (jsonify {[ "error" := JStr extraction_failed ]} 500)).
Proof.
  intros Hfile Hname Hdir Hnew Htxt. rewrite upload_file_unfold, Hfile.
  apply String.eqb_neq in Hname. rewrite Hname. cbv zeta.
  rewrite Hdir, Hnew, Htxt. reflexivity.
Qed.

(** The files after the tail of an upload: as before when it raised before
    the move, and else with the temporary file moved to its stored path. *)
Lemma index_and_store_fs name temp h idx txt clk s :
  fs L (fst (index_and_store L name temp h idx txt clk s)) = fs L s \/
  exists content,
    fs L s !! temp = Some content /\
    fs L (fst (index_and_store L name temp h idx txt clk s)) =
      <[stored_path L name clk s := content]> (delete temp (fs L s)).
Proof.
  destruct s as [f m r v c].
  unfold index_and_store, stored_path, taken. run_monad.
  repeat (case_match; simplify_eq/=); eauto.
Qed.

Lemma suffixed_not_absolute name base ext ts :
  splitext name = (base, ext) -> startswith "/" name = false ->
  startswith "/" (base +:+ "_" +:+ ts +:+ ext) = false.
Proof.
  intros Hsp%splitext_app Hn. subst name.
  destruct base as [|c base]; [reflexivity|]. exact Hn.
Qed.

Lemma processed_path name :
  startswith "/" name = false ->
  join_path PROCESSED_FOLDER name = PROCESSED_FOLDER +:+ "/" +:+ name.
Proof. intros Hn. by apply join_path_relative. Qed.

Lemma upload_path name :
  startswith "/" name = false ->
  join_path UPLOAD_FOLDER name = UPLOAD_FOLDER +:+ "/" +:+ name.
Proof. intros Hn. by apply join_path_relative. Qed.

(** A file stored under the plain name of an upload is not touched by that
    upload: the new file goes to a suffixed path. *)
Lemma plain_name_file_kept files clk s file content :
  files !! "file" = Some file ->
  startswith "/" (secure_filename L (filename file)) = false ->
  fs L s !! join_path PROCESSED_FOLDER (secure_filename L (filename file)) = Some content ->
  fs L (step L s (POST_upload files clk))
    !! join_path PROCESSED_FOLDER (secure_filename L (filename file)) = Some content.
Proof.
  intros Hfile Hrel Hc. unfold step. cbn [handle].
  rewrite upload_file_unfold, Hfile.
  set (name := secure_filename L (filename file)) in *.
  assert (temp_path_of L file <> join_path PROCESSED_FOLDER name) as Htemp.
  { unfold temp_path_of. fold name. rewrite upload_path, processed_path by done.
    discriminate. }
  destruct (String.eqb _ _); [exact Hc|]. cbv zeta.
  destruct (is_dir _); [exact Hc|].
  destruct (has_hash _ _); [cbn; by rewrite lookup_delete_ne|].
  destruct (negb _); [cbn; by rewrite lookup_delete_ne|].
  assert (fs L (saved L file s) !! join_path PROCESSED_FOLDER name = Some content) as Hc'.
  { unfold saved. cbn. by rewrite lookup_insert_ne. }
  match goal with |- context [index_and_store L ?a ?b ?c ?d ?e ?f ?g] =>
    destruct (index_and_store_fs a b c d e f g) as [->|(bytes & _ & ->)] end;
    [exact Hc'|].
  assert (stored_path L name clk (saved L file s) <> join_path PROCESSED_FOLDER name) as Hdest.
  { unfold stored_path, taken. rewrite Hc'.
    rewrite (bool_decide_eq_true_2 (is_Some (Some content))) by eauto.
    rewrite orb_true_r. destruct (splitext name) as [base ext] eqn:Hsp.
    rewrite !processed_path by eauto using suffixed_not_absolute.
    intros Heq. do 2 apply String.app_inj in Heq.
    by apply suffixed_name_differs in Heq. }
  rewrite lookup_insert_ne by done. rewrite lookup_delete_ne by done. exact Hc'.
Qed.

(** The same content uploaded again, under any name, after an ingestion
    that stored it: the second upload is answered "already processed" and
    only removes its own temporary file. *)
Lemma same_content_twice files1 clk1 files2 clk2 s file1 file2 rec :
  files1 !! "file" = Some file1 ->
  snd (upload_file L files1 clk1 s) = Ok (stored_response rec) ->
  files2 !! "file" = Some file2 ->
  filename file2 <> "" ->
  is_dir (temp_path_of L file2) = false ->
  stream file2 = stream file1 ->
  upload_file L files2 clk2 (step L s (POST_upload files1 clk1)) =
    (set_fs L (delete (temp_path_of L file2)) (step L s (POST_upload files1 clk1)),
     Ok (jsonify {[ "message" := JStr already_processed ]} 200)).
Proof.
  intros Hf1 Hok Hf2 Hname Hdir Hsame.
  apply upload_duplicate_run; [exact Hf2|exact Hname|exact Hdir|].
  destruct (upload_file_manifest files1 clk1 s)
    as [[_ Hno]|(file & dn & dp & Hfile & _ & _ & Hm)]; [by destruct (Hno rec)|].
  rewrite Hf1 in Hfile. injection Hfile as <-.
  unfold records, step. cbn [handle]. rewrite Hm, Hsame.
  apply has_hash_spec. eexists. split; [apply elem_of_app; right; apply list_elem_of_here|].
  reflexivity.
Qed.

End HandlerFacts.

(* ===================================================================== *)
(** ** Lemmas for the further properties *)
(* ===================================================================== *)

Section StripFacts.

Lemma blank_app a b : blank (a +:+ b) = blank a && blank b.
Proof. unfold blank. by rewrite list_ascii_app, forallb_app. Qed.

Lemma lstrip_blank s : lstrip s = "" <-> blank s = true.
Proof.
  induction s as [|c s IH]; [done|]. cbn [lstrip]. unfold blank. cbn.
  destruct (isspace c); cbn; [exact IH|]. split; discriminate.
Qed.

Lemma lstrip_not_blank s : lstrip s <> "" -> blank (lstrip s) = false.
Proof.
  induction s as [|c s IH]; [done|]. cbn [lstrip].
  destruct (isspace c) eqn:E; [exact IH|]. intros _. unfold blank. cbn. by rewrite E.
Qed.

Lemma list_ascii_rev_app s1 s2 :
  String.list_ascii_of_string (String.rev_app s1 s2) =
  rev (String.list_ascii_of_string s1) ++ String.list_ascii_of_string s2.
Proof.
  revert s2. induction s1 as [|c s1 IH]; intros s2; [reflexivity|].
  cbn. rewrite IH. cbn. by rewrite <- app_assoc.
Qed.

Lemma list_ascii_rev s :
  String.list_ascii_of_string (String.rev s) = rev (String.list_ascii_of_string s).
Proof. unfold String.rev. by rewrite list_ascii_rev_app, app_nil_r. Qed.

Lemma blank_rev s : blank (String.rev s) = blank s.
Proof.
  unfold blank. rewrite list_ascii_rev.
  induction (String.list_ascii_of_string s) as [|c l IH]; [reflexivity|].
  cbn. rewrite forallb_app, IH. cbn. rewrite andb_true_r. apply andb_comm.
Qed.

Lemma rev_empty s : String.rev s = "" <-> s = "".
Proof.
  split; [|by intros ->]. intros H.
  apply (f_equal String.list_ascii_of_string) in H. rewrite list_ascii_rev in H. cbn in H.
  destruct s as [|c s]; [reflexivity|]. cbn in H.
  by destruct (rev (String.list_ascii_of_string s)).
Qed.

Lemma rstrip_blank s : rstrip s = "" <-> blank s = true.
Proof. unfold rstrip. by rewrite rev_empty, lstrip_blank, blank_rev. Qed.

(** [s.strip()] is empty exactly when [s] holds nothing but white space. *)
Lemma strip_blank s : strip s = "" <-> blank s = true.
Proof.
  unfold strip. rewrite rstrip_blank. split.
  - intros Hb. apply lstrip_blank. destruct (lstrip s) eqn:E; [reflexivity|].
    rewrite <- E in Hb. rewrite lstrip_not_blank in Hb; [discriminate|]. by rewrite E.
  - intros Hb. apply lstrip_blank in Hb. by rewrite Hb.
Qed.

Lemma blank_join sep parts :
  blank sep = true -> blank (join sep parts) = forallb blank parts.
Proof.
  intros Hs. induction parts as [|p rest IH]; [reflexivity|].
  destruct rest as [|q rest]; [cbn; by rewrite andb_true_r|].
  change (join sep (p :: q :: rest)) with (p +:+ sep +:+ join sep (q :: rest)).
  rewrite !blank_app, Hs, IH. reflexivity.
Qed.

Lemma forallb_fmap {A B} (f : B -> bool) (g : A -> B) l :
  forallb f (map g l) = forallb (fun x => f (g x)) l.
Proof. induction l as [|x l IH]; [reflexivity|]. cbn. by rewrite IH. Qed.

End StripFacts.

Section ListingFacts.
Context {A : Type} (key : A -> string).

Lemma insert_desc_last x l :
  Forall (fun y => String.ltb (key x) (key y) = true) l ->
  insert_desc key x l = l ++ [x].
Proof.
  induction 1 as [|y r Hy _ IH]; [reflexivity|]. cbn. by rewrite Hy, IH.
Qed.

Lemma sorted_reverse_ascending l : ascending key l -> sorted_reverse key l = rev l.
Proof.
  induction 1 as [|x r _ IH Hall]; [reflexivity|].
  cbn [sorted_reverse foldr]. fold (sorted_reverse key r). rewrite IH.
  cbn [rev]. apply insert_desc_last. apply Forall_forall. intros y Hy.
  apply list_elem_of_In, in_rev in Hy. rewrite Forall_forall in Hall.
  apply Hall. by apply list_elem_of_In.
Qed.
End ListingFacts.

Section StampFacts.

Lemma append_assoc s t u : (s +:+ t) +:+ u = s +:+ (t +:+ u).
Proof.
  induction s as [|c s IH]; [reflexivity|].
  change (String c s +:+ t) with (String c (s +:+ t)).
  change (String c (s +:+ t) +:+ u) with (String c ((s +:+ t) +:+ u)).
  change (String c s +:+ (t +:+ u)) with (String c (s +:+ (t +:+ u))).
  by rewrite IH.
Qed.

Lemma ascii_compare_refl c : Ascii.compare c c = Eq.
Proof. unfold Ascii.compare. apply N.compare_refl. Qed.

Lemma compare_refl s : String.compare s s = Eq.
Proof. induction s as [|c s IH]; [reflexivity|]. cbn. by rewrite ascii_compare_refl. Qed.

(** Behind prefixes of one length, the prefixes decide first. *)
Lemma compare_app a a' s s' :
  String.length a = String.length a' ->
  String.compare (a +:+ s) (a' +:+ s') =
  match String.compare a a' with
  | Eq => String.compare s s'
  | c => c
  end.
Proof.
  revert a'. induction a as [|c a IH]; intros [|c' a'] Hl; try discriminate Hl.
  - reflexivity.
  - change (String c a +:+ s) with (String c (a +:+ s)).
    change (String c' a' +:+ s') with (String c' (a' +:+ s')).
    cbn [String.compare]. destruct (Ascii.compare c c'); [|reflexivity..].
    apply IH. by injection Hl.
Qed.

Lemma compare_same_prefix a s s' :
  String.compare (a +:+ s) (a +:+ s') = String.compare s s'.
Proof. rewrite compare_app by reflexivity. by rewrite compare_refl. Qed.

Lemma dec_length w n : String.length (dec w n) = w.
Proof.
  revert n. induction w as [|w IH]; intros n; [reflexivity|].
  cbn [dec]. rewrite length_append, IH. cbn. lia.
Qed.

Lemma digit_compare x y :
  Ascii.compare (digit x) (digit y) = Z.compare (x mod 10) (y mod 10).
Proof.
  unfold Ascii.compare, digit.
  pose proof (Z.mod_pos_bound x 10 ltac:(lia)) as Hx.
  pose proof (Z.mod_pos_bound y 10 ltac:(lia)) as Hy.
  rewrite !N_ascii_embedding by lia.
  rewrite Z2N.inj_compare by lia.
  apply Z.add_compare_mono_l.
Qed.

Lemma compare_by_digits x y :
  Z.compare x y =
  match Z.compare (x / 10) (y / 10) with
  | Eq => Z.compare (x mod 10) (y mod 10)
  | c => c
  end.
Proof.
  pose proof (Z.div_mod x 10 ltac:(lia)) as Hx.
  pose proof (Z.div_mod y 10 ltac:(lia)) as Hy.
  pose proof (Z.mod_pos_bound x 10 ltac:(lia)).
  pose proof (Z.mod_pos_bound y 10 ltac:(lia)).
  destruct (Z.compare_spec (x / 10) (y / 10)) as [E|E|E].
  - rewrite Hx, Hy at 1. rewrite E. apply Z.add_compare_mono_l.
  - apply Z.compare_lt_iff. lia.
  - apply Z.compare_gt_iff. lia.
Qed.

(** Zero-padded decimals of one width compare as the numbers do. *)
Lemma dec_compare w x y :
  0 <= x < 10 ^ Z.of_nat w -> 0 <= y < 10 ^ Z.of_nat w ->
  String.compare (dec w x) (dec w y) = Z.compare x y.
Proof.
  revert x y. induction w as [|w IH]; intros x y Hx Hy.
  - cbn in *. assert (x = 0) as -> by lia. assert (y = 0) as -> by lia. reflexivity.
  - cbn [dec]. rewrite compare_app by (by rewrite !dec_length).
    rewrite Nat2Z.inj_succ, Z.pow_succ_r in Hx, Hy by lia.
    rewrite IH by (split; [apply Z.div_pos; lia|apply Z.div_lt_upper_bound; lia]).
    rewrite (compare_by_digits x y).
    destruct (Z.compare (x / 10) (y / 10)); [|reflexivity..].
    cbn [String.compare]. rewrite digit_compare.
    by destruct (Z.compare (x mod 10) (y mod 10)).
Qed.

Lemma compare_field w x y s s' :
  0 <= x < 10 ^ Z.of_nat w -> 0 <= y < 10 ^ Z.of_nat w ->
  String.compare (dec w x +:+ s) (dec w y +:+ s') =
  match Z.compare x y with
  | Eq => String.compare s s'
  | c => c
  end.
Proof.
  intros Hx Hy. rewrite compare_app by (by rewrite !dec_length).
  by rewrite dec_compare.
Qed.

End StampFacts.

Lemma not_stored_ok (o : gmap string json) code rec :
  o !! "file" = None -> Ok (jsonify o code) = Ok (stored_response rec) -> False.
Proof.
  intros Hn [= _ Ho]. rewrite Ho in Hn. discriminate Hn.
Qed.

Section FurtherFacts.
Variable L : Libs.
Implicit Types (s : state L).

Lemma stored_path_name name clk s :
  stored_path L name clk s = join_path PROCESSED_FOLDER (stored_name L name clk s).
Proof.
  unfold stored_path, stored_name. destruct (taken L s _); [|reflexivity].
  by destruct (splitext name).
Qed.

Lemma index_and_store_outcome name temp h idx txt clk s content :
  fs L s !! temp = Some content ->
  match snd (index_and_store L name temp h idx txt clk s) with
  | Ok resp =>
      resp = stored_response
               (new_record (stored_name L name clk s) h (stamp_of clk) (stored_path L name clk s))
      /\ fs L (fst (index_and_store L name temp h idx txt clk s)) =
           <[stored_path L name clk s := content]> (delete temp (fs L s))
      /\ manifest L (fst (index_and_store L name temp h idx txt clk s)) =
           Records (idx ++ [new_record (stored_name L name clk s) h (stamp_of clk)
                              (stored_path L name clk s)])
  | Raise e =>
      fs L (fst (index_and_store L name temp h idx txt clk s)) = fs L s
      /\ manifest L (fst (index_and_store L name temp h idx txt clk s)) = manifest L s
      /\ rag L (fst (index_and_store L name temp h idx txt clk s)) = rag L s
      /\ vector_disk L (fst (index_and_store L name temp h idx txt clk s)) = vector_disk L s
      /\ let doc := {| page_content := txt; metadata := {[ "source_filename" := name ]} |} in
         (chunk_documents L [doc] = Raise e \/
          exists chunks, chunk_documents L [doc] = Ok chunks /\ embed_chunks L chunks = Raise e)
  end.
Proof.
  intros Hc. destruct s as [f m r v c]. cbn in Hc.
  unfold index_and_store, stored_path, stored_name, stamp_of, taken. run_monad.
  repeat (case_match; simplify_eq/=); eauto 10.
Qed.

Lemma stored_response_inj rec1 rec2 :
  stored_response rec1 = stored_response rec2 -> rec1 = rec2.
Proof.
  intros E.
  apply (f_equal (fun r => match payload r with
                           | Json o => o !! "file"
                           | Static _ => None
                           end)) in E.
  change (Some (JDict rec1) = Some (JDict rec2)) in E. by injection E.
Qed.

(** What a stored upload did. *)
Lemma upload_stored files clk s rec :
  snd (upload_file L files clk s) = Ok (stored_response rec) ->
  exists file,
    files !! "file" = Some file
    /\ filename file <> ""
    /\ is_dir (temp_path_of L file) = false
    /\ has_hash (sha256_hex (stream file)) (records L s) = false
    /\ text_of_pdf L (stream file) <> ""
    /\ rec = new_record (stored_name L (secure_filename L (filename file)) clk (saved L file s))
               (sha256_hex (stream file)) (stamp_of clk)
               (stored_path L (secure_filename L (filename file)) clk (saved L file s))
    /\ fs L (fst (upload_file L files clk s)) =
         <[stored_path L (secure_filename L (filename file)) clk (saved L file s) := stream file]>
           (delete (temp_path_of L file) (fs L (saved L file s)))
    /\ manifest L (fst (upload_file L files clk s)) = Records (records L s ++ [rec]).
Proof.
  rewrite upload_file_unfold.
  destruct (files !! "file") as [file|] eqn:Hfile; [|intros E; by eapply not_stored_ok in E].
  destruct (String.eqb (filename file) "") eqn:Hname; [intros E; by eapply not_stored_ok in E|].
  cbv zeta. destruct (is_dir _) eqn:Hdir; [discriminate|].
  destruct (has_hash _ _) eqn:Hdup; [intros E; by eapply not_stored_ok in E|].
  destruct (negb _) eqn:Htxt; [intros E; by eapply not_stored_ok in E|].
  intros Hok. exists file. split; [reflexivity|].
  split; [by apply String.eqb_neq|]. split; [exact Hdir|]. split; [exact Hdup|].
  split; [intros E; rewrite E in Htxt; discriminate|].
  assert (fs L (saved L file s) !! temp_path_of L file = Some (stream file)) as Hf
    by apply lookup_insert_eq.
  match type of Hok with context [index_and_store L ?a ?b ?c ?d ?e ?f ?g] =>
    pose proof (index_and_store_outcome a b c d e f g _ Hf) as Ho end.
  rewrite Hok in Ho. destruct Ho as (Hr & Hfs & Hm).
  apply stored_response_inj in Hr. subst rec. auto.
Qed.
Lemma stored_name_relative name clk s :
  startswith "/" name = false -> startswith "/" (stored_name L name clk s) = false.
Proof.
  intros Hn. unfold stored_name. destruct (taken L s _); [|exact Hn].
  destruct (splitext name) as [base ext] eqn:Hsp. by eapply suffixed_not_absolute.
Qed.

Lemma temp_not_stored file clk s :
  startswith "/" (secure_filename L (filename file)) = false ->
  temp_path_of L file <> stored_path L (secure_filename L (filename file)) clk s.
Proof.
  intros Hn. rewrite stored_path_name. unfold temp_path_of.
  rewrite upload_path by done.
  rewrite processed_path by (by apply stored_name_relative).
  discriminate.
Qed.

Lemma constructions_app a b : constructions (a ++ b) = (constructions a + constructions b)%nat.
Proof. unfold constructions. by rewrite List.filter_app, length_app. Qed.

Lemma get_rag_run s :
  get_rag L s =
  match rag L s with
  | Some v => (s, Ok v)
  | None => (set_rag L (Some (vector_disk L s)) (add_call L CallRAGSearch s),
             Ok (vector_disk L s))
  end.
Proof. unfold get_rag. run_monad. by destruct (rag L s). Qed.

(** A request constructs [RAGSearch] only when [rag] is [None], and then
    at most once; once set, [rag] stays set. *)
Ltac same_rag s :=
  let E := fresh "E" in
  destruct (rag L s) eqn:E; cbn; rewrite ?E; [split; [by eexists|done] | left; by split].

Lemma step_constructions r s :
  match rag L s with
  | Some _ =>
      is_Some (rag L (step L s r))
      /\ constructions (calls L (step L s r)) = constructions (calls L s)
  | None =>
      (rag L (step L s r) = None
       /\ constructions (calls L (step L s r)) = constructions (calls L s))
      \/ (is_Some (rag L (step L s r))
          /\ constructions (calls L (step L s r)) = S (constructions (calls L s)))
  end.
Proof.
  unfold step. destruct r as [files clk| |json_body|path]; cbn [handle].
  - rewrite upload_file_unfold.
    destruct (files !! "file") as [file|]; [|same_rag s].
    destruct (String.eqb _ _); [same_rag s|].
    cbv zeta. destruct (is_dir _); [same_rag s|].
    destruct (has_hash _ _); [same_rag s|].
    destruct (negb _); [same_rag s|].
    destruct s as [f m r v c]. unfold index_and_store, saved. run_monad.
    repeat (case_match; simplify_eq/=); rewrite ?constructions_app; cbn;
      try (right; split; [by eauto|]); try (left; split; [done|]);
      try (split; [by eauto|]); lia.
  - rewrite list_processed_run. same_rag s.
  - destruct s as [f m r v c]. unfold chat. run_monad.
    repeat (case_match; simplify_eq/=); rewrite ?constructions_app; cbn;
      try (right; split; [by eauto|]); try (left; split; [done|]);
      try (split; [by eauto|]); lia.
  - destruct (serve_react_manifest L path s) as [-> _]. same_rag s.
Qed.

Lemma stored_record_stored rec : stored_record (Ok (stored_response rec)) = Some rec.
Proof.
  unfold stored_record, stored_response, jsonify.
  rewrite lookup_insert_ne, lookup_singleton_eq by done. by rewrite decide_True.
Qed.

Lemma stored_record_not_stored r :
  (forall rec, r <> Ok (stored_response rec)) -> stored_record r = None.
Proof.
  intros Hn. destruct r as [[code [o|c]]|e]; try reflexivity.
  unfold stored_record. destruct (o !! "file") as [[m|rec|l]|]; try reflexivity.
  rewrite decide_False; [reflexivity|apply Hn].
Qed.

(** The manifest after a run: the records before it, then the records of
    the stored uploads, in the order of the requests. *)
Lemma run_records s rs :
  records L (run L s rs) = records L s ++ omap stored_record (answers L s rs).
Proof.
  revert s. induction rs as [|r rs IH]; intros s; [by rewrite app_nil_r|].
  cbn [run fold_left answers]. fold (run L (step L s r) rs). rewrite IH.
  change (omap stored_record (snd (handle L r s) :: answers L (step L s r) rs))
    with (match stored_record (snd (handle L r s)) with
          | Some rec => rec :: omap stored_record (answers L (step L s r) rs)
          | None => omap stored_record (answers L (step L s r) rs)
          end).
  destruct (handle_manifest L r s) as [[Hm Hn]|(rec & h & _ & _ & Hr & Hm)].
  - rewrite (stored_record_not_stored _ Hn). unfold records at 1. by rewrite Hm.
  - rewrite Hr, stored_record_stored. unfold records at 1. rewrite Hm.
    by rewrite <- app_assoc.
Qed.
Lemma later_records s s' : later L s s' -> exists new, records L s' = records L s ++ new.
Proof.
  induction 1 as [|s' r _ [new IH]|s' _ IH].
  - exists []. by rewrite app_nil_r.
  - destruct (handle_manifest L r s') as [[Hm _]|(rec & h & _ & _ & _ & Hm)].
    + exists new. unfold records at 1. rewrite Hm. exact IH.
    + exists (new ++ [rec]). unfold records at 1. rewrite Hm, IH. by rewrite app_assoc.
  - exact IH.
Qed.

Lemma step_well_formed s r :
  Forall well_formed (records L s) -> Forall well_formed (records L (step L s r)).
Proof.
  intros Hwf. destruct r as [files clk| |json_body|path].
  - unfold step. cbn [handle].
    destruct (upload_file_manifest L files clk s) as [[Hm _]|(f & dn & dp & _ & _ & Hr & _)].
    { unfold records at 1. by rewrite Hm. }
    apply upload_stored in Hr as (file & _ & _ & _ & _ & _ & Hrec & _ & Hm).
    unfold records at 1. rewrite Hm, Hrec. apply Forall_app. split; [exact Hwf|].
    constructor; [|constructor].
    eexists _, _, _. split; [|split].
    + unfold stamp_of. rewrite stored_path_name. reflexivity.
    + apply hexdigest_length.
    + apply hexdigest_is_hex.
  - destruct (handle_manifest L GET_processed s) as [[Hm _]|(rec & h & _ & _ & Hr & _)].
    + unfold records at 1. by rewrite Hm.
    + cbn [handle] in Hr. rewrite list_processed_run in Hr. by apply not_stored_ok in Hr.
  - destruct (chat_manifest L json_body s) as [Hm _].
    unfold records at 1, step. cbn [handle]. by rewrite Hm.
  - destruct (serve_react_manifest L path s) as [Hs _].
    unfold step. cbn [handle]. by rewrite Hs.
Qed.

Lemma index_and_store_calls name temp h idx txt clk s resp :
  snd (index_and_store L name temp h idx txt clk s) = Ok resp ->
  calls L (fst (index_and_store L name temp h idx txt clk s)) =
    calls L s ++ [CallEmbeddingPipeline; CallChunkDocuments; CallEmbedChunks]
            ++ (if rag L s is None then [CallRAGSearch] else [])
            ++ [CallAddEmbeddings; CallSave]
  /\ rag L (fst (index_and_store L name temp h idx txt clk s)) =
       Some (vector_disk L (fst (index_and_store L name temp h idx txt clk s))).
Proof.
  destruct s as [f m r v c].
  unfold index_and_store. run_monad.
  repeat (case_match; simplify_eq/=); intros; simplify_eq/=;
    rewrite <- ?app_assoc; cbn; done.
Qed.

End FurtherFacts.

(* ===================================================================== *)
(** ** Theorems *)
(* ===================================================================== *)

Section Theorems.
Variable L : Libs.
Implicit Types (s : state L) (l : list record).

(** C7: [compute_file_hash] reads the file in chunks of any positive size
    and returns the digest of the whole content fed at once: 64 lower-case
    hexadecimal characters that depend on the bytes of the file alone. *)
Theorem compute_file_hash_chunk_independent s path content chunk_size :
  fs L s !! path = Some content ->
  0 < chunk_size ->
  compute_file_hash L path chunk_size s = (s, Ok (sha256_hex content))
  /\ String.length (sha256_hex content) = 64%nat
  /\ forallb is_hex (String.list_ascii_of_string (sha256_hex content)) = true.
Proof.
  intros Hf Hn. split; [|split].
  - apply compute_file_hash_found; [exact Hf|lia].
  - apply hexdigest_length.
  - apply hexdigest_is_hex.
Qed.

(** C1: an upload whose content hash is the hash of a manifest record is
    answered 200 with the "already processed" message alone; its temporary
    file is gone and every other file is as it was, and the manifest, the
    vector store (in memory and on disk) and the log of retrieval calls are
    as before, whatever the file name. *)
Theorem duplicate_upload_is_noop files clk s file :
  files !! "file" = Some file ->
  filename file <> "" ->
  is_dir (temp_path_of L file) = false ->
  (exists rec : record, rec ∈ records L s /\ rec !! "hash" = Some (sha256_hex (stream file))) ->
  upload_file L files clk s =
    (set_fs L (delete (temp_path_of L file)) s,
     Ok (jsonify {[ "message" := JStr already_processed ]} 200))
  /\ fs L (step L s (POST_upload files clk)) !! temp_path_of L file = None
  /\ (forall p, p <> temp_path_of L file ->
        fs L (step L s (POST_upload files clk)) !! p = fs L s !! p)
  /\ manifest L (step L s (POST_upload files clk)) = manifest L s
  /\ rag L (step L s (POST_upload files clk)) = rag L s
  /\ vector_disk L (step L s (POST_upload files clk)) = vector_disk L s
  /\ calls L (step L s (POST_upload files clk)) = calls L s.
Proof.
  intros Hfile Hname Hdir Hdup. apply has_hash_spec in Hdup.
  pose proof (upload_duplicate_run L files clk s file Hfile Hname Hdir Hdup) as Hrun.
  split; [exact Hrun|]. unfold step. cbn [handle]. rewrite Hrun. cbn.
  split; [apply lookup_delete_eq|].
  split; [intros p Hp; by apply lookup_delete_ne|]. done.
Qed.

(** C4: an upload that is not a duplicate and from which no text is
    extracted is answered 500 with an error message; its temporary file is
    gone, the manifest is as before, and [GET /processed] then lists no
    record with the hash of that content. *)
Theorem empty_extraction_rejected files clk s file :
  files !! "file" = Some file ->
  filename file <> "" ->
  is_dir (temp_path_of L file) = false ->
  (forall rec : record, rec ∈ records L s -> rec !! "hash" <> Some (sha256_hex (stream file))) ->
  snd (extract_text_from_pdf L (temp_path_of L file) (saved L file s)) = Ok "" ->
  upload_file L files clk s =
    (set_fs L (delete (temp_path_of L file)) s,
     Ok (jsonify {[ "error" := JStr extraction_failed ]} 500))
  /\ fs L (step L s (POST_upload files clk)) !! temp_path_of L file = None
  /\ manifest L (step L s (POST_upload files clk)) = manifest L s
  /\ exists listed,
       snd (list_processed L (step L s (POST_upload files clk))) =
         Ok (jsonify {[ "processed" := JList listed ]} 200)
       /\ forall rec : record,
            rec ∈ listed -> rec !! "hash" <> Some (sha256_hex (stream file)).
Proof.
  intros Hfile Hname Hdir Hnew Htxt.
  rewrite extract_text_from_pdf_run in Htxt. cbn in Htxt.
  unfold recoverable_text, saved in Htxt. cbn in Htxt.
  rewrite lookup_insert_eq in Htxt. injection Htxt as Htxt.
  pose proof (proj2 (has_hash_absent _ _) Hnew) as Habs.
  pose proof (upload_empty_run L files clk s file Hfile Hname Hdir Habs Htxt) as Hrun.
  split; [exact Hrun|]. unfold step. cbn [handle]. rewrite Hrun. cbn [fst].
  split; [apply lookup_delete_eq|]. split; [reflexivity|].
  rewrite list_processed_run. eexists. split; [reflexivity|].
  intros rec Hin. apply Hnew.
  rewrite sorted_reverse_perm in Hin. exact Hin.
Qed.

(** C5: a chat request whose message is empty is answered 400; the handler
    calls neither the embedding, nor the search, nor the summarisation: the
    only call it can make is the construction of the retrieval state by
    [get_rag], when that has not been built yet. *)
Theorem empty_chat_rejected json_body s :
  default "" (json_body !! "message") = "" ->
  snd (chat L json_body s) = Ok (jsonify {[ "error" := JStr "Message cannot be empty" ]} 400)
  /\ calls L (fst (chat L json_body s)) =
       calls L s ++ (if rag L s is None then [CallRAGSearch] else [])
  /\ fs L (fst (chat L json_body s)) = fs L s
  /\ manifest L (fst (chat L json_body s)) = manifest L s
  /\ vector_disk L (fst (chat L json_body s)) = vector_disk L s.
Proof.
  intros Hmsg. destruct s as [f m r v c]. unfold chat. run_monad. rewrite Hmsg.
  destruct r; cbn; rewrite ?app_nil_r; done.
Qed.

(** C3: [GET /processed] answers with the records of the manifest, all of
    them and no other, in descending order of [processed_at], and changes
    nothing. *)
Theorem processed_listing_sorted s :
  exists listed,
    list_processed L s = (s, Ok (jsonify {[ "processed" := JList listed ]} 200))
    /\ listed ≡ₚ records L s
    /\ length listed = length (records L s)
    /\ StronglySorted (desc processed_at) listed.
Proof.
  exists (sorted_reverse processed_at (records L s)).
  split; [apply list_processed_run|].
  split; [apply sorted_reverse_perm|].
  split; [apply Permutation_length, sorted_reverse_perm|].
  apply sorted_reverse_sorted.
Qed.

(** C2: in every state reached from a first start by requests and
    restarts, every record of the manifest has a hash and no two records
    have the same one. *)
Theorem manifest_hash_unique s :
  reachable L s ->
  NoDup (map hash_of (records L s)) /\ hashed (records L s).
Proof.
  induction 1 as [s [Hm _]|s r _ [IH1 IH2]|s _ IH].
  - unfold records. rewrite Hm. split; constructor.
  - split; [by apply step_unique|by apply step_hashed].
  - exact IH.
Qed.

(** C8: a request either is an ingestion answered with its stored record,
    and then that one record is appended to the records of the manifest, or
    it leaves the records as they are; no request changes or removes a
    record. *)
Theorem manifest_append_only s r :
  (exists rec, snd (handle L r s) = Ok (stored_response rec) /\
               records L (step L s r) = records L s ++ [rec]) \/
  ((forall rec, snd (handle L r s) <> Ok (stored_response rec)) /\
   records L (step L s r) = records L s).
Proof.
  destruct (handle_manifest L r s) as [[Hm Hn]|(rec & h & _ & _ & Hr & Hm)].
  - right. split; [exact Hn|]. unfold records. by rewrite Hm.
  - left. exists rec. split; [exact Hr|]. unfold records at 1. by rewrite Hm.
Qed.

(** C9: [extract_text_from_pdf] never raises: it returns the recoverable
    text, in which a page whose extraction fails counts as the empty string
    and the other pages keep their text; and when [upload_file] answers 500,
    that text was empty. *)
Theorem extract_text_never_raises path s files clk :
  extract_text_from_pdf L path s = (s, Ok (recoverable_text L s path))
  /\ (forall e, recovered (Raise e) = "")
  /\ (forall resp,
        snd (upload_file L files clk s) = Ok resp -> status resp = 500 ->
        exists file,
          files !! "file" = Some file
          /\ extract_text_from_pdf L (temp_path_of L file) (saved L file s) =
               (saved L file s, Ok "")
          /\ resp = jsonify {[ "error" := JStr extraction_failed ]} 500).
Proof.
  split; [apply extract_text_from_pdf_run|]. split; [reflexivity|].
  intros resp. rewrite upload_file_unfold.
  destruct (files !! "file") as [file|]; [|intros [= <-]; discriminate].
  destruct (String.eqb (filename file) ""); [intros [= <-]; discriminate|].
  cbv zeta. destruct (is_dir _); [discriminate|].
  destruct (has_hash _ _); [intros [= <-]; discriminate|].
  destruct (negb _) eqn:Hempty.
  - intros [= <-] _. exists file. split; [reflexivity|]. split; [|reflexivity].
    rewrite extract_text_from_pdf_run. unfold recoverable_text, saved. cbn.
    rewrite lookup_insert_eq.
    destruct (text_of_pdf L (stream file)); [reflexivity|discriminate].
  - match goal with |- context [index_and_store L ?a ?b ?c ?d ?e ?f ?g] =>
      destruct (index_and_store_cases L a b c d e f g)
        as [(e' & Hr & _)|(dn & dp & Hr & _)] end;
      rewrite Hr; [discriminate|]. intros [= <-]. discriminate.
Qed.

(** C10: when the manifest file does not parse, [load_processed_index]
    returns the empty list; [GET /processed] lists nothing, and an upload is
    answered, and changes the files, the vector store and the records, as it
    does when the manifest is the empty list. *)
Theorem unparseable_manifest_reads_empty s files clk :
  manifest L s = Unparseable ->
  load_processed_index L s = (s, Ok [])
  /\ list_processed L s = (s, Ok (jsonify {[ "processed" := JList [] ]} 200))
  /\ snd (upload_file L files clk s) =
       snd (upload_file L files clk (set_manifest L (Records []) s))
  /\ same_but_manifest L (fst (upload_file L files clk s))
       (fst (upload_file L files clk (set_manifest L (Records []) s)))
  /\ records L (fst (upload_file L files clk s)) =
       records L (fst (upload_file L files clk (set_manifest L (Records []) s))).
Proof.
  intros Hm.
  assert (records L s = []) as Hrec by (unfold records; by rewrite Hm).
  split; [by rewrite load_processed_index_records, Hrec|].
  split; [by rewrite list_processed_run, Hrec|].
  rewrite !upload_file_unfold.
  change (records L (set_manifest L (Records []) s)) with (@nil record).
  rewrite Hrec.
  destruct (files !! "file") as [file|]; [|by repeat split].
  destruct (String.eqb (filename file) ""); [by repeat split|].
  cbv zeta. destruct (is_dir _); [by repeat split|].
  cbn [has_hash existsb].
  destruct (negb _).
  { split; [reflexivity|]. split; [by repeat split|]. unfold records. cbn. by rewrite Hm. }
  change (saved L file (set_manifest L (Records []) s))
    with (set_manifest L (Records []) (saved L file s)).
  match goal with |- context [index_and_store L ?a ?b ?c ?d ?e ?f (saved L file s)] =>
    destruct (index_and_store_manifest L a b c d e f (saved L file s) (Records []))
      as (Hr & Hsame & Hok & Hraise);
    destruct (index_and_store_cases L a b c d e f (saved L file s))
      as [(e' & Hr' & Hm')|(dn & dp & Hr' & Hm')] end.
  - split; [by rewrite Hr|]. split.
    { destruct Hsame as (? & ? & ? & ?). by repeat split. }
    unfold records. rewrite (Hraise _ Hr'), Hm'. cbn. by rewrite Hm.
  - split; [by rewrite Hr|]. split.
    { destruct Hsame as (? & ? & ? & ?). by repeat split. }
    unfold records. by rewrite (Hok _ Hr').
Qed.

End Theorems.

(* ===================================================================== *)
(** ** Further properties *)
(* ===================================================================== *)

Section FurtherTheorems.
Variable L : Libs.
Implicit Types (s : state L).

(** X1: [upload_file] answers 400 exactly when the request has no file
    part or the file name is empty; it then leaves the state as it is:
    nothing is saved, hashed or indexed. *)
Theorem upload_bad_request files clk s :
  (http_status (snd (upload_file L files clk s)) = 400 <-> rejected files = true)
  /\ (rejected files = true -> fst (upload_file L files clk s) = s).
Proof.
  rewrite upload_file_unfold. unfold rejected.
  destruct (files !! "file") as [file|]; [|by split].
  destruct (String.eqb (filename file) ""); [by split|].
  cbv zeta. split; [|discriminate]. split; [|discriminate].
  destruct (is_dir _); [discriminate|].
  destruct (has_hash _ _); [discriminate|].
  destruct (negb _); [discriminate|].
  assert (fs L (saved L file s) !! temp_path_of L file = Some (stream file)) as Hf
    by apply lookup_insert_eq.
  match goal with |- context [index_and_store L ?a ?b ?c ?d ?e ?f ?g] =>
    pose proof (index_and_store_outcome L a b c d e f g _ Hf) as Ho;
    destruct (snd (index_and_store L a b c d e f g)) as [resp|e'] end.
  - destruct Ho as (-> & _). discriminate.
  - destruct Ho as (_ & _ & _ & _ & [Hc|(chunks & _ & Hc)]); by destruct e'.
Qed.

(** X2: when chunking or embedding raises during an upload that passed
    the early returns, [upload_file] ends with that exception: the manifest
    and the vector store, in memory and on disk, are as before, and the
    uploaded bytes stay at the temporary path. *)
Theorem failed_embedding_keeps_index files clk s file e :
  files !! "file" = Some file ->
  filename file <> "" ->
  is_dir (temp_path_of L file) = false ->
  has_hash (sha256_hex (stream file)) (records L s) = false ->
  text_of_pdf L (stream file) <> "" ->
  (chunk_documents L [doc_of L file] = Raise e \/
   exists chunks, chunk_documents L [doc_of L file] = Ok chunks /\
                  embed_chunks L chunks = Raise e) ->
  snd (upload_file L files clk s) = Raise e
  /\ fs L (step L s (POST_upload files clk)) = <[temp_path_of L file := stream file]> (fs L s)
  /\ manifest L (step L s (POST_upload files clk)) = manifest L s
  /\ rag L (step L s (POST_upload files clk)) = rag L s
  /\ vector_disk L (step L s (POST_upload files clk)) = vector_disk L s.
Proof.
  intros Hfile Hname Hdir Hnew Htxt Hfail. unfold step. cbn [handle].
  rewrite upload_file_unfold, Hfile.
  apply String.eqb_neq in Hname. rewrite Hname. cbv zeta. rewrite Hdir, Hnew.
  destruct (text_of_pdf L (stream file)) as [|c txt] eqn:Ht; [done|]. cbn [truthy negb String.eqb].
  unfold doc_of in Hfail. rewrite Ht in Hfail.
  destruct s as [f m r v c0]. unfold index_and_store, saved. run_monad.
  destruct Hfail as [Hc|(chunks & Hc & He)]; rewrite Hc; [done|].
  rewrite He. done.
Qed.

(** X3: when an upload is stored, the record in the answer is the last
    record of the manifest, its hash is the SHA-256 of the uploaded bytes,
    and the file at its path holds exactly those bytes. *)
Theorem stored_file_matches_record files clk s rec :
  snd (upload_file L files clk s) = Ok (stored_response rec) ->
  exists file path,
    files !! "file" = Some file
    /\ rec !! "path" = Some path
    /\ rec !! "hash" = Some (sha256_hex (stream file))
    /\ fs L (step L s (POST_upload files clk)) !! path = Some (stream file)
    /\ last (records L (step L s (POST_upload files clk))) = Some rec.
Proof.
  intros Hok. destruct (upload_stored L files clk s rec Hok)
    as (file & Hfile & _ & _ & _ & _ & -> & Hfs & Hm).
  exists file, (stored_path L (secure_filename L (filename file)) clk (saved L file s)).
  split; [exact Hfile|]. split; [reflexivity|]. split; [reflexivity|].
  unfold step. cbn [handle]. split.
  - rewrite Hfs. apply lookup_insert_eq.
  - unfold records at 1. rewrite Hm. apply last_snoc.
Qed.

(** X4: an upload that is saved replaces whatever file was at its
    temporary path in the upload folder: whatever the outcome, the old
    content is not there afterwards. *)
Theorem upload_replaces_file_in_upload_folder files clk s file old :
  files !! "file" = Some file ->
  filename file <> "" ->
  is_dir (temp_path_of L file) = false ->
  fs L s !! temp_path_of L file = Some old ->
  old <> stream file ->
  fs L (step L s (POST_upload files clk)) !! temp_path_of L file <> Some old.
Proof.
  intros Hfile Hname Hdir Hold Hne. unfold step. cbn [handle].
  rewrite upload_file_unfold, Hfile.
  apply String.eqb_neq in Hname. rewrite Hname. cbv zeta. rewrite Hdir.
  destruct (has_hash _ _); [cbn; by rewrite lookup_delete_eq|].
  destruct (negb _); [cbn; by rewrite lookup_delete_eq|].
  assert (fs L (saved L file s) !! temp_path_of L file = Some (stream file)) as Hf
    by apply lookup_insert_eq.
  match goal with |- context [index_and_store L ?a ?b ?c ?d ?e ?f ?g] =>
    pose proof (index_and_store_outcome L a b c d e f g _ Hf) as Ho;
    destruct (snd (index_and_store L a b c d e f g)) as [resp|e'] end.
  - destruct Ho as (_ & -> & _).
    destruct (decide (stored_path L (secure_filename L (filename file)) clk (saved L file s)
                      = temp_path_of L file)) as [->|Hd].
    + rewrite lookup_insert_eq. congruence.
    + rewrite lookup_insert_ne by done. by rewrite lookup_delete_eq.
  - destruct Ho as (-> & _). rewrite Hf. congruence.
Qed.

(** X5: when [upload_file] returns a response other than 400 and the
    sanitised name is relative, no file is left at the temporary path. *)
Theorem answered_upload_leaves_no_temp_file files clk s file resp :
  files !! "file" = Some file ->
  startswith "/" (secure_filename L (filename file)) = false ->
  snd (upload_file L files clk s) = Ok resp ->
  status resp <> 400 ->
  fs L (step L s (POST_upload files clk)) !! temp_path_of L file = None.
Proof.
  intros Hfile Hrel. unfold step. cbn [handle].
  rewrite upload_file_unfold, Hfile.
  destruct (String.eqb (filename file) ""); [by intros [= <-]|].
  cbv zeta. destruct (is_dir _); [discriminate|].
  destruct (has_hash _ _); [intros _ _; cbn; by rewrite lookup_delete_eq|].
  destruct (negb _); [intros _ _; cbn; by rewrite lookup_delete_eq|].
  assert (fs L (saved L file s) !! temp_path_of L file = Some (stream file)) as Hf
    by apply lookup_insert_eq.
  match goal with |- context [index_and_store L ?a ?b ?c ?d ?e ?f ?g] =>
    pose proof (index_and_store_outcome L a b c d e f g _ Hf) as Ho;
    destruct (snd (index_and_store L a b c d e f g)) as [resp'|e'] end; [|discriminate].
  intros _ _. destruct Ho as (_ & -> & _).
  rewrite lookup_insert_ne by (apply not_eq_sym; by apply temp_not_stored).
  apply lookup_delete_eq.
Qed.

(** X6: over any sequence of requests [get_rag] constructs [RAGSearch]
    at most once, and not at all when [rag] was already set, which it then
    stays. *)
Theorem rag_constructed_once s rs :
  (constructions (calls L (run L s rs)) <= S (constructions (calls L s)))%nat
  /\ (is_Some (rag L s) ->
      is_Some (rag L (run L s rs))
      /\ constructions (calls L (run L s rs)) = constructions (calls L s)).
Proof.
  revert s. induction rs as [|r rs IH]; intros s; [cbn; split; [lia|done]|].
  cbn [run fold_left]. fold (run L (step L s r) rs).
  pose proof (step_constructions L r s) as Hs.
  destruct (IH (step L s r)) as [IH1 IH2].
  destruct (rag L s) as [v|].
  - destruct Hs as [Hsome Hc]. destruct (IH2 Hsome) as [? ?].
    split; [lia|]. intros _. split; [done|lia].
  - split; [|by intros [? ?]].
    destruct Hs as [[_ Hc]|[Hsome Hc]]; [lia|].
    destruct (IH2 Hsome) as [_ ?]. lia.
Qed.

(** X7: the manifest after a sequence of requests is the manifest before
    it followed by the records of the stored uploads, in the order of the
    requests; its length grows by the number of stored uploads. *)
Theorem manifest_after_run s rs :
  records L (run L s rs) = records L s ++ omap stored_record (answers L s rs)
  /\ length (records L (run L s rs)) =
       (length (records L s) + length (omap stored_record (answers L s rs)))%nat.
Proof.
  pose proof (run_records L s rs) as H. split; [exact H|].
  by rewrite H, length_app.
Qed.

(** X8: once a hash is in the manifest, an upload with that content is
    answered "already processed" in every later state, after any requests
    and restarts, under any file name. *)
Theorem duplicate_rejected_ever_after files clk s s' file :
  later L s s' ->
  files !! "file" = Some file ->
  filename file <> "" ->
  is_dir (temp_path_of L file) = false ->
  has_hash (sha256_hex (stream file)) (records L s) = true ->
  upload_file L files clk s' =
    (set_fs L (delete (temp_path_of L file)) s',
     Ok (jsonify {[ "message" := JStr already_processed ]} 200)).
Proof.
  intros Hl Hfile Hname Hdir Hdup.
  apply upload_duplicate_run; [done..|].
  destruct (later_records L s s' Hl) as [new ->].
  apply has_hash_spec in Hdup as (rec & Hin & Hh).
  apply has_hash_spec. exists rec. split; [|exact Hh].
  apply elem_of_app. by left.
Qed.

(** X9: every record of every reachable manifest has the four fields an
    ingestion writes: a 64-digit hexadecimal hash, an ISO time stamp ending
    in Z, and the path of its file name below [processed_data]. *)
Theorem manifest_records_well_formed s :
  reachable L s -> Forall well_formed (records L s).
Proof.
  induction 1 as [s [Hm _]|s r _ IH|s _ IH].
  - unfold records. rewrite Hm. constructor.
  - by apply step_well_formed.
  - exact IH.
Qed.

(** X10: [extract_text_from_pdf] returns the empty string exactly when
    the file is missing, the reader raises at once, or every page it yields
    has only white space (or no text, or fails). *)
Theorem extraction_empty_iff_blank_pages path s :
  snd (extract_text_from_pdf L path s) = Ok "" <->
  match fs L s !! path with
  | None => True
  | Some content =>
      match PdfReader L content with
      | Raise _ => True
      | Ok pages => forallb (fun p => blank (recovered p)) (readable_pages pages) = true
      end
  end.
Proof.
  rewrite extract_text_from_pdf_run. cbn [snd]. unfold recoverable_text, text_of_pdf.
  destruct (fs L s !! path) as [content|]; [|done].
  destruct (PdfReader L content) as [pages|e]; [|done].
  split.
  - intros [= H]. apply strip_blank in H. rewrite blank_join in H by reflexivity.
    by rewrite forallb_fmap in H.
  - intros H. f_equal. apply strip_blank. rewrite blank_join by reflexivity.
    by rewrite forallb_fmap.
Qed.


(** X12: in the answer of [GET /processed], records with the same
    [processed_at] keep the order they have in the manifest. *)
Theorem listing_keeps_order_of_ties s :
  exists listed,
    snd (list_processed L s) = Ok (jsonify {[ "processed" := JList listed ]} 200)
    /\ forall stamp,
         filter (fun rec => processed_at rec = stamp) listed =
         filter (fun rec => processed_at rec = stamp) (records L s).
Proof.
  rewrite list_processed_run. eexists. split; [reflexivity|].
  intros stamp. apply sorted_reverse_stable.
Qed.

(** X13: when the stamps of the manifest strictly increase, the answer of
    [GET /processed] is the manifest in reverse order. *)
Theorem listing_reverses_ascending_manifest s :
  ascending processed_at (records L s) ->
  snd (list_processed L s) =
    Ok (jsonify {[ "processed" := JList (rev (records L s)) ]} 200).
Proof.
  intros Hasc. rewrite list_processed_run. cbn [snd].
  by rewrite sorted_reverse_ascending.
Qed.

(** X14: a chat request with a message calls [search_and_summarize]
    once, on the store in memory (the snapshot on disk when [rag] was not
    set) and with that message; its text is answered 200, its exception
    leaves the handler; files, manifest and snapshot are unchanged. *)
Theorem chat_answers_from_memory json_body s :
  default "" (json_body !! "message") <> "" ->
  let message := default "" (json_body !! "message") in
  let store := default (vector_disk L s) (rag L s) in
  snd (chat L json_body s) =
    match search_and_summarize L store message with
    | Ok text => Ok (jsonify {[ "response" := JStr text ]} 200)
    | Raise e => Raise e
    end
  /\ calls L (fst (chat L json_body s)) =
       calls L s ++ (if rag L s is None then [CallRAGSearch] else [])
               ++ [CallSearchAndSummarize message]
  /\ rag L (fst (chat L json_body s)) = Some store
  /\ fs L (fst (chat L json_body s)) = fs L s
  /\ manifest L (fst (chat L json_body s)) = manifest L s
  /\ vector_disk L (fst (chat L json_body s)) = vector_disk L s.
Proof.
  intros Hmsg. cbv zeta. destruct s as [f m r v c]. unfold chat. run_monad.
  destruct (default "" (json_body !! "message")) as [|ch msg] eqn:E; [done|].
  cbn [truthy negb String.eqb].
  destruct r as [store|]; cbn;
    destruct (search_and_summarize L _ _); cbn; rewrite <- ?app_assoc; done.
Qed.

(** X16: a stored upload makes these calls, in this order: the embedding
    pipeline, chunking, embedding, the construction of [RAGSearch] if [rag]
    was not set, [add_embeddings], [save]; afterwards the snapshot on disk
    is the store in memory. *)
Theorem stored_upload_calls files clk s rec :
  snd (upload_file L files clk s) = Ok (stored_response rec) ->
  calls L (step L s (POST_upload files clk)) =
    calls L s ++ [CallEmbeddingPipeline; CallChunkDocuments; CallEmbedChunks]
            ++ (if rag L s is None then [CallRAGSearch] else [])
            ++ [CallAddEmbeddings; CallSave]
  /\ rag L (step L s (POST_upload files clk)) =
       Some (vector_disk L (step L s (POST_upload files clk))).
Proof.
  unfold step. cbn [handle]. rewrite upload_file_unfold.
  destruct (files !! "file") as [file|]; [|intros E; by apply not_stored_ok in E].
  destruct (String.eqb (filename file) ""); [intros E; by apply not_stored_ok in E|].
  cbv zeta. destruct (is_dir _); [discriminate|].
  destruct (has_hash _ _); [intros E; by apply not_stored_ok in E|].
  destruct (negb _); [intros E; by apply not_stored_ok in E|].
  intros Hok. by apply index_and_store_calls in Hok.
Qed.


(** X18: an upload does not touch the file stored under its own
    sanitised name in [processed_data]: when that path is taken, the new
    file goes to a suffixed path. *)
Theorem same_name_upload_keeps_plain_file files clk s file content :
  files !! "file" = Some file ->
  startswith "/" (secure_filename L (filename file)) = false ->
  fs L s !! join_path PROCESSED_FOLDER (secure_filename L (filename file)) = Some content ->
  fs L (step L s (POST_upload files clk))
    !! join_path PROCESSED_FOLDER (secure_filename L (filename file)) = Some content.
Proof. apply plain_name_file_kept. Qed.

(** X19: a stored upload on a manifest that does not parse rewrites the
    manifest file as the list of its one new record: whatever the file held
    before is gone. *)
Theorem stored_upload_replaces_unparseable_manifest files clk s rec :
  manifest L s = Unparseable ->
  snd (upload_file L files clk s) = Ok (stored_response rec) ->
  manifest L (step L s (POST_upload files clk)) = Records [rec].
Proof.
  intros Hm Hok. apply upload_stored in Hok as (file & _ & _ & _ & _ & _ & _ & _ & Hm').
  unfold step. cbn [handle]. rewrite Hm'. unfold records. by rewrite Hm.
Qed.

End FurtherTheorems.

(** X15: two [processed_at] stamps compare as strings by their time to
    the second; within one second a stamp without fraction (microsecond 0)
    is above every stamp with a fraction, and fractions compare by value. *)
Theorem processed_at_order d1 d2 :
  in_range d1 -> in_range d2 ->
  String.compare (isoformat d1 +:+ "Z") (isoformat d2 +:+ "Z") = stamp_order d1 d2.
Proof.
  intros (Hy1 & Hm1 & Hd1 & Hh1 & Hn1 & Hs1 & Hu1) (Hy2 & Hm2 & Hd2 & Hh2 & Hn2 & Hs2 & Hu2).
  unfold isoformat, stamp_order, to_second. rewrite !append_assoc. cbn [lex].
  rewrite (compare_field 4) by (cbn; lia).
  destruct (Z.compare (year d1) (year d2)); [|reflexivity..].
  rewrite (compare_same_prefix "-"), (compare_field 2) by (cbn; lia).
  destruct (Z.compare (month d1) (month d2)); [|reflexivity..].
  rewrite (compare_same_prefix "-"), (compare_field 2) by (cbn; lia).
  destruct (Z.compare (day d1) (day d2)); [|reflexivity..].
  rewrite (compare_same_prefix "T"), (compare_field 2) by (cbn; lia).
  destruct (Z.compare (hour d1) (hour d2)); [|reflexivity..].
  rewrite (compare_same_prefix ":"), (compare_field 2) by (cbn; lia).
  destruct (Z.compare (minute d1) (minute d2)); [|reflexivity..].
  rewrite (compare_same_prefix ":"), (compare_field 2) by (cbn; lia).
  destruct (Z.compare (second d1) (second d2)); [|reflexivity..].
  destruct (microsecond d1 =? 0), (microsecond d2 =? 0); try reflexivity.
  rewrite !append_assoc, (compare_same_prefix "."), (compare_field 6) by (cbn; lia).
  by destruct (Z.compare (microsecond d1) (microsecond d2)).
Qed.

(* ===================================================================== *)
(** ** Closed runs *)
(* ===================================================================== *)

(** C6: three PDFs of different contents are uploaded as [a.pdf]; all three
    uploads succeed. The second and the third are renamed within the same
    second, so both get the path [a_20261103090502.pdf]: the third replaces
    the stored file of the second, and two manifest records name one path. *)
Theorem same_second_collision_overwrites :
  let rs := [first_upload; second_upload; third_upload] in
  let s := run demo empty_store rs in
  statuses (answers demo empty_store rs) = [200; 200; 200]
  /\ paths s = [Some "processed_data/a.pdf";
                Some "processed_data/a_20261103090502.pdf";
                Some "processed_data/a_20261103090502.pdf"]
  /\ stored s "processed_data/a.pdf" = Some "wheat"
  /\ stored s "processed_data/a_20261103090502.pdf" = Some "paddy"
  /\ map fst (map_to_list (fs demo s)) ≡ₚ
       ["processed_data/a.pdf"; "processed_data/a_20261103090502.pdf"].
Proof.
  cbv zeta. repeat split; vm_compute; try reflexivity.
  apply Permutation_swap.
Qed.

Lemma compute_file_hash_chunk_independent_witness :
  let file := {| filename := "a.pdf"; stream := bytes_of_text "wheat" |} in
  compute_file_hash demo "data/a.pdf" 2 (saved demo file empty_store) =
    (saved demo file empty_store, Ok (sha256_hex (bytes_of_text "wheat"))).
Proof.
  exact (proj1 (compute_file_hash_chunk_independent demo
                  (saved demo {| filename := "a.pdf"; stream := bytes_of_text "wheat" |}
                     empty_store)
                  "data/a.pdf" (bytes_of_text "wheat") 2 eq_refl eq_refl)).
Defined.

Lemma duplicate_upload_is_noop_witness :
  let s := step demo empty_store first_upload in
  upload_file demo (pdf "renamed.pdf" "wheat") (at_time 9 6 0 0 0) s =
    (set_fs demo (delete "data/renamed.pdf") s,
     Ok (jsonify {[ "message" := JStr already_processed ]} 200)).
Proof.
  refine (proj1 (duplicate_upload_is_noop demo (pdf "renamed.pdf" "wheat") (at_time 9 6 0 0 0)
                   (step demo empty_store first_upload)
                   {| filename := "renamed.pdf"; stream := bytes_of_text "wheat" |}
                   eq_refl _ eq_refl _)).
  - discriminate.
  - apply has_hash_spec. vm_compute. reflexivity.
Defined.

Lemma empty_extraction_rejected_witness :
  upload_file demo (pdf "blank.pdf" "   ") (at_time 9 6 0 0 0) empty_store =
    (set_fs demo (delete "data/blank.pdf") empty_store,
     Ok (jsonify {[ "error" := JStr extraction_failed ]} 500)).
Proof.
  refine (proj1 (empty_extraction_rejected demo (pdf "blank.pdf" "   ") (at_time 9 6 0 0 0)
                   empty_store {| filename := "blank.pdf"; stream := bytes_of_text "   " |}
                   eq_refl _ eq_refl _ eq_refl)).
  - discriminate.
  - intros rec Hin. inversion Hin.
Defined.

Lemma empty_chat_rejected_witness :
  snd (chat demo {[ "message" := "" ]} empty_store) =
    Ok (jsonify {[ "error" := JStr "Message cannot be empty" ]} 400).
Proof.
  exact (proj1 (empty_chat_rejected demo {[ "message" := "" ]} empty_store eq_refl)).
Defined.

Lemma manifest_hash_unique_witness :
  let s := step demo (step demo empty_store first_upload) second_upload in
  NoDup (map hash_of (records demo s)) /\ hashed (records demo s).
Proof.
  apply (manifest_hash_unique demo).
  apply reachable_step, reachable_step, reachable_fresh. split; reflexivity.
Defined.

Lemma extract_text_never_raises_witness :
  exists file,
    pdf "blank.pdf" "   " !! "file" = Some file
    /\ extract_text_from_pdf demo (temp_path_of demo file) (saved demo file empty_store) =
         (saved demo file empty_store, Ok "")
    /\ jsonify {[ "error" := JStr extraction_failed ]} 500 =
       jsonify {[ "error" := JStr extraction_failed ]} 500.
Proof.
  refine (proj2 (proj2 (extract_text_never_raises demo "data/blank.pdf" empty_store
                          (pdf "blank.pdf" "   ") (at_time 9 6 0 0 0)))
                (jsonify {[ "error" := JStr extraction_failed ]} 500) _ eq_refl).
  vm_compute. reflexivity.
Defined.

Lemma unparseable_manifest_reads_empty_witness :
  let s := set_manifest demo Unparseable empty_store in
  load_processed_index demo s = (s, Ok []).
Proof.
  exact (proj1 (unparseable_manifest_reads_empty demo
                  (set_manifest demo Unparseable empty_store)
                  (pdf "a.pdf" "wheat") (at_time 9 6 0 0 0) eq_refl)).
Defined.

(* ===================================================================== *)
(** ** Closed runs for the further properties *)
(* ===================================================================== *)

Lemma upload_bad_request_witness :
  fst (upload_file demo ∅ (at_time 9 6 0 0 0) empty_store) = empty_store.
Proof.
  exact (proj2 (upload_bad_request demo ∅ (at_time 9 6 0 0 0) empty_store) eq_refl).
Defined.

Lemma failed_embedding_keeps_index_witness :
  snd (upload_file failing (pdf "a.pdf" "wheat") (at_time 9 6 0 0 0) failing_store) =
    Raise (LibraryError "embed_chunks").
Proof.
  refine (proj1 (failed_embedding_keeps_index failing (pdf "a.pdf" "wheat")
                   (at_time 9 6 0 0 0) failing_store wheat (LibraryError "embed_chunks")
                   eq_refl _ eq_refl eq_refl _ _)).
  - discriminate.
  - vm_compute. discriminate.
  - right. eexists. split; reflexivity.
Defined.

Lemma stored_file_matches_record_witness :
  exists file path,
    pdf "a.pdf" "wheat" !! "file" = Some file
    /\ new_record "a.pdf" (sha256_hex (bytes_of_text "wheat"))
         "2026-11-03T09:05:01.480000Z" "processed_data/a.pdf" !! "path" = Some path
    /\ new_record "a.pdf" (sha256_hex (bytes_of_text "wheat"))
         "2026-11-03T09:05:01.480000Z" "processed_data/a.pdf" !! "hash" =
       Some (sha256_hex (stream file))
    /\ fs demo (step demo empty_store first_upload) !! path = Some (stream file)
    /\ last (records demo (step demo empty_store first_upload)) =
       Some (new_record "a.pdf" (sha256_hex (bytes_of_text "wheat"))
               "2026-11-03T09:05:01.480000Z" "processed_data/a.pdf").
Proof.
  refine (stored_file_matches_record demo (pdf "a.pdf" "wheat") (at_time 9 5 1 120000 480000)
            empty_store _ _).
  vm_compute. reflexivity.
Defined.
Lemma upload_replaces_file_in_upload_folder_witness :
  fs demo with_old_file !! "data/a.pdf" = Some (bytes_of_text "older")
  /\ fs demo (step demo with_old_file first_upload) !! "data/a.pdf"
       <> Some (bytes_of_text "older").
Proof.
  split; [reflexivity|].
  refine (upload_replaces_file_in_upload_folder demo (pdf "a.pdf" "wheat")
            (at_time 9 5 1 120000 480000) with_old_file wheat (bytes_of_text "older")
            eq_refl _ eq_refl eq_refl _); discriminate.
Defined.

Lemma answered_upload_leaves_no_temp_file_witness :
  fs demo (step demo empty_store first_upload) !! "data/a.pdf" = None.
Proof.
  refine (answered_upload_leaves_no_temp_file demo (pdf "a.pdf" "wheat")
            (at_time 9 5 1 120000 480000) empty_store wheat
            (stored_response (new_record "a.pdf" (sha256_hex (bytes_of_text "wheat"))
                                "2026-11-03T09:05:01.480000Z" "processed_data/a.pdf"))
            eq_refl eq_refl _ _).
  - vm_compute. reflexivity.
  - discriminate.
Defined.

Lemma duplicate_rejected_ever_after_witness :
  let s' := restart demo (step demo (step demo empty_store first_upload) second_upload) in
  upload_file demo (pdf "renamed.pdf" "wheat") (at_time 9 7 0 0 0) s' =
    (set_fs demo (delete "data/renamed.pdf") s',
     Ok (jsonify {[ "message" := JStr already_processed ]} 200)).
Proof.
  refine (duplicate_rejected_ever_after demo (pdf "renamed.pdf" "wheat") (at_time 9 7 0 0 0)
            (step demo empty_store first_upload) _
            {| filename := "renamed.pdf"; stream := bytes_of_text "wheat" |}
            _ eq_refl _ eq_refl _).
  - apply later_restart, later_step, later_now.
  - discriminate.
  - vm_compute. reflexivity.
Defined.

Lemma manifest_records_well_formed_witness :
  Forall well_formed (records demo (step demo (step demo empty_store first_upload) second_upload)).
Proof.
  apply (manifest_records_well_formed demo).
  apply reachable_step, reachable_step, reachable_fresh. split; reflexivity.
Defined.

Lemma listing_reverses_ascending_manifest_witness :
  let s := step demo (step demo empty_store first_upload) second_upload in
  snd (list_processed demo s) =
    Ok (jsonify {[ "processed" := JList (rev (records demo s)) ]} 200).
Proof.
  apply (listing_reverses_ascending_manifest demo).
  vm_compute. repeat constructor.
Defined.

Lemma chat_answers_from_memory_witness :
  snd (chat demo {[ "message" := "soil" ]} empty_store) =
    Ok (jsonify {[ "response" := JStr "soil" ]} 200).
Proof.
  refine (proj1 (chat_answers_from_memory demo {[ "message" := "soil" ]} empty_store _)).
  discriminate.
Defined.

Lemma processed_at_order_witness :
  String.compare (isoformat (Datetime 2026 11 3 9 5 2 0) +:+ "Z")
                 (isoformat (Datetime 2026 11 3 9 5 2 300000) +:+ "Z") = Gt.
Proof.
  refine (processed_at_order (Datetime 2026 11 3 9 5 2 0) (Datetime 2026 11 3 9 5 2 300000)
            _ _); repeat split; cbn; lia.
Defined.

Lemma same_name_upload_keeps_plain_file_witness :
  let s := step demo empty_store first_upload in
  fs demo (step demo s second_upload) !! "processed_data/a.pdf" = Some (bytes_of_text "wheat").
Proof.
  refine (same_name_upload_keeps_plain_file demo (pdf "a.pdf" "maize")
            (at_time 9 5 2 100000 300000) (step demo empty_store first_upload)
            {| filename := "a.pdf"; stream := bytes_of_text "maize" |}
            (bytes_of_text "wheat") eq_refl eq_refl _).
  vm_compute. reflexivity.
Defined.

Lemma stored_upload_replaces_unparseable_manifest_witness :
  manifest demo (step demo (set_manifest demo Unparseable empty_store) first_upload) =
    Records [new_record "a.pdf" (sha256_hex (bytes_of_text "wheat"))
               "2026-11-03T09:05:01.480000Z" "processed_data/a.pdf"].
Proof.
  refine (stored_upload_replaces_unparseable_manifest demo (pdf "a.pdf" "wheat")
            (at_time 9 5 1 120000 480000) (set_manifest demo Unparseable empty_store)
            _ eq_refl _).
  vm_compute. reflexivity.
Defined.

Lemma stored_upload_calls_witness :
  calls demo (step demo empty_store first_upload) =
    [CallEmbeddingPipeline; CallChunkDocuments; CallEmbedChunks; CallRAGSearch;
     CallAddEmbeddings; CallSave].
Proof.
  refine (proj1 (stored_upload_calls demo (pdf "a.pdf" "wheat") (at_time 9 5 1 120000 480000)
                   empty_store
                   (new_record "a.pdf" (sha256_hex (bytes_of_text "wheat"))
                      "2026-11-03T09:05:01.480000Z" "processed_data/a.pdf") _)).
  vm_compute. reflexivity.
Defined.
